(** * A shallow embedding of the OpenProject API proxy (mcp_agent.py)

    The gateway's operations assemble a URL, a JSON payload and query
    parameters, call the request helper [make_request] and re-serialise
    its result.  This file embeds:
    - the JSON values the code builds and the two functions of Python's
      [json] module it relies on ([json.dumps] with its default settings,
      [json.loads]), on the integer/string/list/dict fragment;
    - Python's keyword-argument binding for calls to [make_request];
    - [make_request] itself, over an abstract upstream that answers a
      request with a response or a transport failure;
    - the operations the claims are about, in a small state/exception
      monad that records every request sent to the upstream;
    - the SQLite catalog lookup [search_endpoint] / [query_api]. *)

From Stdlib Require Import String Ascii List ZArith Bool Lia.
From Stdlib Require Import Decimal DecimalString DecimalN DecimalPos.
Import ListNotations.

Local Open Scope string_scope.
Local Open Scope list_scope.
Set Warnings "-register-all".

(** ** JSON values *)

(** Python objects that go through [json.dumps] / [json.loads]: [None],
    [bool], [int], [str], [list] and [dict] with string keys.  A [dict]
    is an association list in insertion order, as Python iterates it.
    Floats are not part of this model. *)
Inductive json : Type :=
| JNull
| JBool (b : bool)
| JInt (z : Z)
| JStr (s : string)
| JList (l : list json)
| JDict (kvs : list (string * json)).

Definition dict := list (string * json).

(** [d[k]] as an optional lookup. *)
Fixpoint dict_get (k : string) (d : dict) : option json :=
  match d with
  | [] => None
  | (k', v) :: d' => if String.eqb k k' then Some v else dict_get k d'
  end.

(** [d[k] = v]: an existing key keeps its position, a new key is
    appended at the end. *)
Fixpoint dict_set (k : string) (v : json) (d : dict) : dict :=
  match d with
  | [] => [(k, v)]
  | (k', v') :: d' =>
      if String.eqb k k' then (k', v) :: d' else (k', v') :: dict_set k v d'
  end.

(** [dict(pairs)]: successive assignments. *)
Definition dict_of_pairs (ps : list (string * json)) : dict :=
  fold_left (fun d kv => dict_set (fst kv) (snd kv) d) ps [].

(** Python truthiness of the values used in [if x:] and [x or y]. *)
Definition truthy (j : json) : bool :=
  match j with
  | JNull => false
  | JBool b => b
  | JInt z => negb (Z.eqb z 0)
  | JStr s => negb (String.eqb s EmptyString)
  | JList l => negb (match l with [] => true | _ => false end)
  | JDict d => negb (match d with [] => true | _ => false end)
  end.

(** [x or y] *)
Definition py_or (x y : json) : json := if truthy x then x else y.

(** Python [None] for an omitted optional argument. *)
Definition opt_json {A} (f : A -> json) (o : option A) : json :=
  match o with Some a => f a | None => JNull end.

(** ** Characters *)

Definition chars (s : string) : list ascii := list_ascii_of_string s.
Definition dq : ascii := ascii_of_nat 34.  (* the double quote *)
Definition bs : ascii := ascii_of_nat 92.  (* the backslash *)

Definition is_digit (c : ascii) : bool :=
  (48 <=? nat_of_ascii c)%nat && (nat_of_ascii c <=? 57)%nat.

(** json's whitespace: space, tab, newline, carriage return. *)
Definition is_ws (c : ascii) : bool :=
  let n := nat_of_ascii c in
  (n =? 32)%nat || (n =? 9)%nat || (n =? 10)%nat || (n =? 13)%nat.

(** ** [json.dumps] with its defaults: [ensure_ascii=True],
    separators [", "] and [": "]. *)

Definition hex_digit (n : nat) : ascii :=
  if (n <? 10)%nat then ascii_of_nat (48 + n) else ascii_of_nat (87 + n).

(** [ESCAPE_DCT] / [py_encode_basestring_ascii]: quote and backslash,
    the five short escapes, printable ASCII verbatim, every other code
    point as [\u00xx] in lower-case hexadecimal. *)
Definition escape_char (c : ascii) : list ascii :=
  let n := nat_of_ascii c in
  if Ascii.eqb c dq then [bs; dq]
  else if Ascii.eqb c bs then [bs; bs]
  else if (n =? 8)%nat then [bs; "b"%char]
  else if (n =? 12)%nat then [bs; "f"%char]
  else if (n =? 10)%nat then [bs; "n"%char]
  else if (n =? 13)%nat then [bs; "r"%char]
  else if (n =? 9)%nat then [bs; "t"%char]
  else if (32 <=? n)%nat && (n <=? 126)%nat then [c]
  else [bs; "u"%char; "0"%char; "0"%char; hex_digit (n / 16); hex_digit (n mod 16)].

Definition encode_string (s : string) : list ascii :=
  dq :: flat_map escape_char (chars s) ++ [dq].

Definition digits_of_N (n : N) : list ascii :=
  chars (NilEmpty.string_of_uint (N.to_uint n)).

(** [int.__repr__] *)
Definition int_repr (z : Z) : list ascii :=
  match z with
  | Zneg p => "-"%char :: digits_of_N (Npos p)
  | _ => digits_of_N (Z.to_N z)
  end.

Fixpoint dumps_l (j : json) : list ascii :=
  match j with
  | JNull => chars "null"
  | JBool b => if b then chars "true" else chars "false"
  | JInt z => int_repr z
  | JStr s => encode_string s
  | JList [] => chars "[]"
  | JList (x :: xs) =>
      "["%char :: dumps_l x
        ++ (fix items (ys : list json) : list ascii :=
              match ys with
              | [] => []
              | y :: ys' => chars ", " ++ dumps_l y ++ items ys'
              end) xs
        ++ ["]"%char]
  | JDict [] => chars "{}"
  | JDict ((k, v) :: kvs) =>
      "{"%char :: encode_string k ++ chars ": " ++ dumps_l v
        ++ (fix members (ms : list (string * json)) : list ascii :=
              match ms with
              | [] => []
              | (k', v') :: ms' =>
                  chars ", " ++ encode_string k' ++ chars ": " ++ dumps_l v'
                    ++ members ms'
              end) kvs
        ++ ["}"%char]
  end.

Definition json_dumps (j : json) : string := string_of_list_ascii (dumps_l j).

(** ** [json.loads]

    The scanner of [json.decoder] on the same fragment.  A number
    followed by [.], [e] or [E] is a float (or an error) in Python and
    is rejected here, as are [\u] escapes above U+00FF; the rule that
    rejects leading zeros ([01]) is not modelled.  [fuel] bounds the
    recursion; [json_loads] gives it the length of the input. *)

Fixpoint skip_ws (s : list ascii) : list ascii :=
  match s with
  | c :: r => if is_ws c then skip_ws r else s
  | [] => []
  end.

Fixpoint strip_prefix (p s : list ascii) : option (list ascii) :=
  match p with
  | [] => Some s
  | c :: p' =>
      match s with
      | d :: s' => if Ascii.eqb c d then strip_prefix p' s' else None
      | [] => None
      end
  end.

Definition hex_val (c : ascii) : option nat :=
  let n := nat_of_ascii c in
  if (48 <=? n)%nat && (n <=? 57)%nat then Some (n - 48)%nat
  else if (97 <=? n)%nat && (n <=? 102)%nat then Some (n - 87)%nat
  else if (65 <=? n)%nat && (n <=? 70)%nat then Some (n - 55)%nat
  else None.

(** [py_scanstring] in strict mode, after the opening quote. *)
Fixpoint scan_string (s : list ascii) (acc : list ascii)
  : option (string * list ascii) :=
  match s with
  | [] => None
  | c :: r =>
      if Ascii.eqb c dq then Some (string_of_list_ascii (List.rev acc), r)
      else if Ascii.eqb c bs then
        match r with
        | [] => None
        | e :: r' =>
            if Ascii.eqb e dq then scan_string r' (dq :: acc)
            else if Ascii.eqb e bs then scan_string r' (bs :: acc)
            else if Ascii.eqb e "/" then scan_string r' ("/"%char :: acc)
            else if Ascii.eqb e "b" then scan_string r' (ascii_of_nat 8 :: acc)
            else if Ascii.eqb e "f" then scan_string r' (ascii_of_nat 12 :: acc)
            else if Ascii.eqb e "n" then scan_string r' (ascii_of_nat 10 :: acc)
            else if Ascii.eqb e "r" then scan_string r' (ascii_of_nat 13 :: acc)
            else if Ascii.eqb e "t" then scan_string r' (ascii_of_nat 9 :: acc)
            else if Ascii.eqb e "u" then
              match r' with
              | h1 :: h2 :: h3 :: h4 :: r'' =>
                  match hex_val h1, hex_val h2, hex_val h3, hex_val h4 with
                  | Some a, Some b, Some c', Some d =>
                      let code := (((a * 16 + b) * 16 + c') * 16 + d)%nat in
                      if (code <? 256)%nat
                      then scan_string r'' (ascii_of_nat code :: acc)
                      else None
                  | _, _, _, _ => None
                  end
              | _ => None
              end
            else None
        end
      else if (nat_of_ascii c <? 32)%nat then None
      else scan_string r (c :: acc)
  end.

Fixpoint take_digits (s : list ascii) : list ascii * list ascii :=
  match s with
  | c :: r =>
      if is_digit c then let '(ds, rest) := take_digits r in (c :: ds, rest)
      else ([], s)
  | [] => ([], [])
  end.

(** [NUMBER_RE] restricted to integers: the digits after the optional
    sign. *)
Definition scan_digits (neg : bool) (s1 : list ascii) : option (json * list ascii) :=
  let '(ds, rest) := take_digits s1 in
  match ds with
  | [] => None
  | _ :: _ =>
      let stop :=
        match rest with
        | c :: _ => Ascii.eqb c "." || Ascii.eqb c "e" || Ascii.eqb c "E"
        | [] => false
        end in
      if stop then None
      else
        match NilEmpty.uint_of_string (string_of_list_ascii ds) with
        | Some u =>
            let n := Z.of_N (N.of_uint u) in
            Some (JInt (if neg then Z.opp n else n), rest)
        | None => None
        end
  end.

Definition scan_number (s : list ascii) : option (json * list ascii) :=
  match s with
  | c :: r => if Ascii.eqb c "-" then scan_digits true r else scan_digits false s
  | [] => scan_digits false s
  end.

(** [scan_once], [JSONArray] and [JSONObject]. *)
Fixpoint scan_value (fuel : nat) (s : list ascii) : option (json * list ascii) :=
  match fuel with
  | O => None
  | S f =>
      match s with
      | [] => None
      | c :: r =>
          if Ascii.eqb c dq then
            match scan_string r [] with
            | Some (x, r') => Some (JStr x, r')
            | None => None
            end
          else if Ascii.eqb c "{" then
            match skip_ws r with
            | c' :: r' =>
                if Ascii.eqb c' "}" then Some (JDict [], r')
                else scan_object f (c' :: r') []
            | [] => None
            end
          else if Ascii.eqb c "[" then
            match skip_ws r with
            | c' :: r' =>
                if Ascii.eqb c' "]" then Some (JList [], r')
                else scan_array f (c' :: r') []
            | [] => None
            end
          else if Ascii.eqb c "n" then
            match strip_prefix (chars "ull") r with
            | Some r' => Some (JNull, r')
            | None => None
            end
          else if Ascii.eqb c "t" then
            match strip_prefix (chars "rue") r with
            | Some r' => Some (JBool true, r')
            | None => None
            end
          else if Ascii.eqb c "f" then
            match strip_prefix (chars "alse") r with
            | Some r' => Some (JBool false, r')
            | None => None
            end
          else scan_number s
      end
  end
with scan_array (fuel : nat) (s : list ascii) (acc : list json)
  : option (json * list ascii) :=
  match fuel with
  | O => None
  | S f =>
      match scan_value f s with
      | None => None
      | Some (v, r) =>
          match skip_ws r with
          | c :: r' =>
              if Ascii.eqb c "," then scan_array f (skip_ws r') (v :: acc)
              else if Ascii.eqb c "]" then Some (JList (List.rev (v :: acc)), r')
              else None
          | [] => None
          end
      end
  end
with scan_object (fuel : nat) (s : list ascii) (acc : list (string * json))
  : option (json * list ascii) :=
  match fuel with
  | O => None
  | S f =>
      match s with
      | c :: r =>
          if Ascii.eqb c dq then
            match scan_string r [] with
            | None => None
            | Some (k, r1) =>
                match skip_ws r1 with
                | c1 :: r2 =>
                    if Ascii.eqb c1 ":" then
                      match scan_value f (skip_ws r2) with
                      | None => None
                      | Some (v, r3) =>
                          match skip_ws r3 with
                          | c3 :: r4 =>
                              if Ascii.eqb c3 "," then
                                scan_object f (skip_ws r4) ((k, v) :: acc)
                              else if Ascii.eqb c3 "}" then
                                Some (JDict (dict_of_pairs (List.rev ((k, v) :: acc))), r4)
                              else None
                          | [] => None
                          end
                      end
                    else None
                | [] => None
                end
            end
          else None
      | [] => None
      end
  end.

(** [json.loads]: [None] stands for a raised [JSONDecodeError]. *)
Definition json_loads (s : string) : option json :=
  let cs := chars s in
  match scan_value (S (length cs)) (skip_ws cs) with
  | Some (v, r) => match skip_ws r with [] => Some v | _ => None end
  | None => None
  end.

(** ** Python runtime: exceptions and effects *)

Local Infix "+++" := String.append (at level 60, right associativity).

(** The exceptions raised on the paths modelled here. *)
Inductive exn : Type :=
| TypeError (msg : string)
| UnboundLocalError (name : string)
| AttributeError (msg : string)
| JSONDecodeError
| HTTPStatusError (status : Z) (text : string)
| TransportError (msg : string).

(** [str(e)]; the position suffix of a decode error and the text of
    httpx's status error are not modelled. *)
Definition exn_str (e : exn) : string :=
  match e with
  | TypeError m => m
  | UnboundLocalError x =>
      "cannot access local variable '" +++ x +++ "' where it is not associated with a value"
  | AttributeError m => m
  | JSONDecodeError => "Expecting value"
  | HTTPStatusError _ _ => "HTTP status error"
  | TransportError m => m
  end.

(** The keyword arguments [make_request] hands to the httpx client
    method: [rq_params] and [rq_json] are [None] when the key is absent
    from [request_args], [Some JNull] when it is present with [None]. *)
Record request : Type := mk_request {
  rq_method : string;
  rq_url : string;
  rq_headers : json;
  rq_params : option json;
  rq_json : option json
}.

(** What the upstream does with one request: a response (status and
    body text) or no response at all (DNS, refused connection, timeout). *)
Inductive net_result : Type :=
| NetResponse (status : Z) (text : string)
| NetFailure (msg : string).

Inductive outcome (A : Type) : Type :=
| Ok (a : A)
| Raise (e : exn).
Arguments Ok {A} a.
Arguments Raise {A} e.

(** A coroutine of the gateway: it may raise, and it appends to the log
    every request it hands to the network. *)
Definition M (A : Type) : Type := list request -> outcome A * list request.

Definition ret {A} (a : A) : M A := fun log => (Ok a, log).
Definition raise {A} (e : exn) : M A := fun log => (Raise e, log).
Definition bind {A B} (m : M A) (k : A -> M B) : M B :=
  fun log =>
    match m log with
    | (Ok a, log') => k a log'
    | (Raise e, log') => (Raise e, log')
    end.
Notation "x <- m ;; k" := (bind m (fun x => k))
  (at level 61, m at next level, right associativity).

(** [try: m except Exception as e: h(e)] *)
Definition try_except {A} (m : M A) (h : exn -> M A) : M A :=
  fun log =>
    match m log with
    | (Raise e, log') => h e log'
    | r => r
    end.

(** Reading a name that the function body assigns somewhere, so that
    Python compiles it as a local: before its assignment it is unbound. *)
Definition read_local (locals : list (string * string)) (x : string) : M string :=
  match find (fun kv => String.eqb (fst kv) x) locals with
  | Some (_, v) => ret v
  | None => raise (UnboundLocalError x)
  end.

(** ** Small string helpers *)

Definition lower_ascii (c : ascii) : ascii :=
  let n := nat_of_ascii c in
  if (65 <=? n)%nat && (n <=? 90)%nat then ascii_of_nat (n + 32) else c.

(** [str.lower()] on ASCII text. *)
Definition str_lower (s : string) : string :=
  string_of_list_ascii (map lower_ascii (chars s)).

Definition mem_str (x : string) (l : list string) : bool := existsb (String.eqb x) l.

(** [str(n)] / [f"{n}"] for an int. *)
Definition z_str (z : Z) : string := string_of_list_ascii (int_repr z).

(** [",".join(xs)] *)
Definition join_comma (xs : list string) : string :=
  match xs with
  | [] => EmptyString
  | x :: xs' => fold_left (fun acc y => acc +++ "," +++ y) xs' x
  end.

Definition USER_AGENT : string :=
  "Mozilla/5.0 (Windows NT 10.0; Win64; x64) AppleWebKit/537.36 (KHTML, like Gecko) Chrome/91.0.4472.124 Safari/537.36".

(** The methods for which [make_request] sends its data as query
    parameters. *)
Definition query_methods : list string := ["get"; "delete"; "head"; "options"].

(** The httpx [AsyncClient] methods that issue a request when called as
    [getattr(client, m)(url, **request_args)].  Any other name is either
    missing ([AttributeError]) or does not accept that call ([TypeError]);
    both are raised before anything is sent. *)
Definition httpx_verbs : list string :=
  ["get"; "options"; "head"; "post"; "put"; "patch"; "delete"].

(** The request-args dictionary of [make_request]. *)
Definition build_request (method_lower url : string) (headers data params : json) : request :=
  if mem_str method_lower query_methods then
    {| rq_method := method_lower; rq_url := url; rq_headers := headers;
       rq_params := Some (py_or data params); rq_json := None |}
  else
    {| rq_method := method_lower; rq_url := url; rq_headers := headers;
       rq_params := if truthy params then Some params else None;
       rq_json := Some data |}.

(** The two error records of [make_request]. *)
Definition http_error_record (status : Z) (text : string) : json :=
  JDict [("error", JStr "HTTP error"); ("status", JInt status); ("details", JStr text)].

Definition request_failed_record (msg : string) : json :=
  JDict [("error", JStr "Request failed"); ("details", JStr msg)].

Definition is_2xx (status : Z) : bool := (200 <=? status)%Z && (status <? 300)%Z.

Definition make_request_params : list string := ["url"; "method"; "headers"; "data"; "params"].

Definition arg_or_none (kws : list (string * json)) (k : string) : json :=
  match dict_get k kws with Some v => v | None => JNull end.

Definition auth_headers (key : string) : json :=
  JDict [("Authorization", JStr ("Basic " +++ key)); ("Content-Type", JStr "application/json")].

(** [d[k] = v] when the optional argument is not [None]. *)
Definition set_if_some {A} (k : string) (f : A -> json) (o : option A) (d : dict) : dict :=
  match o with Some a => dict_set k (f a) d | None => d end.

(** [if x: d[k] = f(x)]: the value is tested for truthiness. *)
Definition set_if_truthy {A} (k : string) (inj : A -> json) (f : A -> json)
    (o : option A) (d : dict) : dict :=
  match o with
  | Some a => if truthy (inj a) then dict_set k (f a) d else d
  | None => d
  end.

Definition raw_text (s : string) : json := JDict [("raw", JStr s)].
Definition markdown_text (s : string) : json :=
  JDict [("format", JStr "markdown"); ("raw", JStr s)].
Definition href (prefix : string) (id : Z) : json :=
  JDict [("href", JStr (prefix +++ z_str id))].

Definition notify_params (notify : bool) : json :=
  JDict [("notify", JStr (if notify then "true" else "false"))].

(** ** [repr] and [str] of the values [make_request] returns *)

(** One character of [unicode_repr]: the chosen quote and the backslash
    are escaped, tab, newline and carriage return get their short
    escapes, the other control characters, DEL and the non-printable
    Latin-1 code points (U+0080..U+00A0 and the soft hyphen U+00AD) are
    written [\xhh]; every other character is kept. *)
Definition repr_char (q c : ascii) : list ascii :=
  let n := nat_of_ascii c in
  if Ascii.eqb c q || Ascii.eqb c bs then [bs; c]
  else if (n =? 9)%nat then [bs; "t"%char]
  else if (n =? 10)%nat then [bs; "n"%char]
  else if (n =? 13)%nat then [bs; "r"%char]
  else if (n <? 32)%nat || (n =? 127)%nat
          || ((128 <=? n)%nat && (n <=? 160)%nat) || (n =? 173)%nat
  then [bs; "x"%char; hex_digit (n / 16); hex_digit (n mod 16)]
  else [c].

(** [str.__repr__]: single quotes, unless the text holds a single quote
    and no double quote. *)
Definition repr_string (s : string) : list ascii :=
  let cs := chars s in
  let q := if existsb (Ascii.eqb "'"%char) cs && negb (existsb (Ascii.eqb dq) cs)
           then dq else "'"%char in
  q :: flat_map (repr_char q) cs ++ [q].

(** [repr] of a value: [None], [True], [False], the int's digits, and
    lists and dicts with the separators [", "] and [": "]. *)
Fixpoint repr_l (j : json) : list ascii :=
  match j with
  | JNull => chars "None"
  | JBool b => if b then chars "True" else chars "False"
  | JInt z => int_repr z
  | JStr s => repr_string s
  | JList [] => chars "[]"
  | JList (x :: xs) =>
      "["%char :: repr_l x
        ++ (fix items (ys : list json) : list ascii :=
              match ys with
              | [] => ["]"%char]
              | y :: ys' => ","%char :: " "%char :: repr_l y ++ items ys'
              end) xs
  | JDict [] => chars "{}"
  | JDict ((k, v) :: kvs) =>
      "{"%char :: repr_string k ++ ":"%char :: " "%char :: repr_l v
        ++ (fix members (ms : list (string * json)) : list ascii :=
              match ms with
              | [] => ["}"%char]
              | (k', v') :: ms' =>
                  ","%char :: " "%char :: repr_string k' ++ ":"%char :: " "%char
                    :: repr_l v' ++ members ms'
              end) kvs
  end.

(** [f"{x}"] = [format(x, "")] = [str(x)]: a str is itself, every other
    value its [repr]. *)
Definition py_str (j : json) : string :=
  match j with
  | JStr s => s
  | _ => string_of_list_ascii (repr_l j)
  end.

Section Gateway.

(** The upstream server, the two values imported from the [config]
    module and the process environment. *)
Variable upstream : request -> net_result.
Variable config_host : string.
Variable config_xcred : string.
Variable os_environ : string -> option string.

Definition getenv (name default : string) : string :=
  match os_environ name with Some v => v | None => default end.

Definition send (r : request) : M net_result :=
  fun log => (Ok (upstream r), log ++ [r]).

(** ** [make_request] *)
Definition make_request (url method : string) (headers data params : json) : M json :=
  let headers := py_or headers (JDict []) in
  match headers with
  | JDict h =>
      let headers := JDict (dict_set "User-Agent" (JStr USER_AGENT) h) in
      try_except
        (let method_lower := str_lower method in
         let r := build_request method_lower url headers data params in
         if mem_str method_lower httpx_verbs then
           resp <- send r;;
           match resp with
           | NetFailure msg => raise (TransportError msg)
           | NetResponse status text =>
               if is_2xx status then
                 match json_loads text with
                 | Some j => ret j
                 | None => raise JSONDecodeError
                 end
               else raise (HTTPStatusError status text)
           end
         else
           raise (AttributeError ("'AsyncClient' object has no attribute '" +++ method_lower +++ "'")))
        (fun e =>
           match e with
           | HTTPStatusError status text => ret (http_error_record status text)
           | e => ret (request_failed_record (exn_str e))
           end)
  | _ => raise (TypeError "item assignment on a non-dict headers value")
  end.

(** A call [make_request(k1=v1, ...)]: Python binds the keywords against
    the signature [(url, method, headers=None, data=None, params=None)]
    before the coroutine is created; an unknown keyword raises
    [TypeError] at the call site.  (The callers always pass [url] and
    [method] as strings.) *)
Definition call_make_request (kws : list (string * json)) : M json :=
  match find (fun kv => negb (mem_str (fst kv) make_request_params)) kws with
  | Some (k, _) =>
      raise (TypeError ("make_request() got an unexpected keyword argument '" +++ k +++ "'"))
  | None =>
      match dict_get "url" kws, dict_get "method" kws with
      | Some (JStr url), Some (JStr method) =>
          make_request url method (arg_or_none kws "headers")
            (arg_or_none kws "data") (arg_or_none kws "params")
      | _, _ => raise (TypeError "make_request() missing required positional argument")
      end
  end.

(** ** Gateway operations *)

(** [run_api]: [host] and [api_key] are both assigned in its body, so
    both are locals; the f-string assigned to [api_key] reads [api_key]
    itself. *)
Definition run_api (query method : string) : M json :=
  let locals := [("host", "pm.v.spaceagecu.org/api/v3")] in
  host <- read_local locals "host";;
  let api_url := "https://" +++ host +++ query in
  key <- read_local locals "api_key";;
  let locals := ("api_key", "Basic " +++ key) :: locals in
  auth <- read_local locals "api_key";;
  let headers := JDict [("Authorization", JStr auth);
                        ("Content-Type", JStr "application/json");
                        ("Connection", JStr "keep-alive")] in
  response <- call_make_request [("url", JStr api_url); ("method", JStr method);
                                 ("headers", headers); ("data", JNull); ("params", JNull)];;
  ret (JStr (json_dumps response)).

Definition create_project_payload (name : string) (description identifier : option string)
    (public : bool) (status_explanation : option string) : dict :=
  let payload := [("name", JStr name); ("identifier", opt_json JStr identifier);
                  ("public", JBool public); ("active", JBool true); ("_type", JStr "Project")] in
  let payload := set_if_truthy "description" JStr markdown_text description payload in
  set_if_truthy "statusExplanation" JStr markdown_text status_explanation payload.

(** [create_project]; [public] defaults to [True] in the source. *)
Definition create_project (name : string) (description identifier : option string)
    (public : bool) (status_explanation : option string) : M json :=
  let api_url := "https://" +++ config_host +++ "/api/v3/projects" in
  let headers := auth_headers config_xcred in
  let payload := create_project_payload name description identifier public status_explanation in
  try_except
    (response <- call_make_request [("url", JStr api_url); ("method", JStr "POST");
                                    ("headers", headers); ("json", JDict payload)];;
     ret (JStr (json_dumps response)))
    (fun e => ret (JStr ("Error creating project: " +++ exn_str e))).

(** [list_projects]: no [try], and the dict is returned as it is. *)
Definition list_projects : M json :=
  let api_url := "https://" +++ config_host +++ "/api/v3/projects" in
  call_make_request [("url", JStr api_url); ("method", JStr "GET");
                     ("headers", auth_headers config_xcred)].

Definition update_project_payload (name identifier : option string)
    (public active : option bool) (description status_explanation : option string) : dict :=
  let payload : dict := [] in
  let payload := set_if_some "name" JStr name payload in
  let payload := set_if_some "identifier" JStr identifier payload in
  let payload := set_if_some "public" JBool public payload in
  let payload := set_if_some "active" JBool active payload in
  let payload := set_if_some "description" raw_text description payload in
  set_if_some "statusExplanation" raw_text status_explanation payload.

Definition update_project (project_id : Z) (name : option string) (description : option string)
    (identifier : option string) (public active : option bool)
    (status_explanation : option string) : M json :=
  let api_url := "https://" +++ config_host +++ "/api/v3/projects/" +++ z_str project_id in
  let headers := auth_headers config_xcred in
  let payload := update_project_payload name identifier public active description status_explanation in
  match payload with
  | [] => ret (JStr "No update fields provided. Please specify at least one field to change.")
  | _ =>
      try_except
        (response <- call_make_request [("url", JStr api_url); ("method", JStr "PATCH");
                                        ("headers", headers); ("json", JDict payload)];;
         ret (JStr (json_dumps response)))
        (fun e => ret (JStr ("Error updating project " +++ z_str project_id +++ ": " +++ exn_str e)))
  end.

Definition get_project_work_packages_params (offset page_size : option Z)
    (filters sort_by : option json) (group_by : option string) (show_sums : option bool)
    (select : option (list string)) : dict :=
  let params : dict := [] in
  let params := set_if_some "offset" JInt offset params in
  let params := set_if_some "pageSize" JInt page_size params in
  let params := set_if_some "filters" (fun f => JStr (json_dumps f)) filters params in
  let params := set_if_some "sortBy" (fun f => JStr (json_dumps f)) sort_by params in
  let params := set_if_some "groupBy" JStr group_by params in
  let params := set_if_some "showSums" (fun b : bool => JStr (if b then "true" else "false")) show_sums params in
  set_if_some "select" (fun l => JStr (join_comma l)) select params.

Definition get_project_work_packages (project_id : Z) (offset page_size : option Z)
    (filters sort_by : option json) (group_by : option string) (show_sums : option bool)
    (select : option (list string)) : M json :=
  let api_url := "https://" +++ config_host +++ "/api/v3/projects/" +++ z_str project_id +++ "/work_packages" in
  let headers := auth_headers config_xcred in
  let params := get_project_work_packages_params offset page_size filters sort_by group_by show_sums select in
  try_except
    (response <- call_make_request [("url", JStr api_url); ("method", JStr "GET");
                                    ("headers", headers); ("params", JDict params)];;
     ret (JStr (json_dumps response)))
    (fun e => ret (JStr ("Error retrieving work packages for project " +++ z_str project_id
                         +++ ": " +++ exn_str e))).

(** The [_links] object of the two work-package shapers; [test] is the
    guard each of them puts in front of an id ([if x:] or
    [if x is not None:]). *)
Definition work_package_links (test : string -> (Z -> json) -> option Z -> dict -> dict)
    (type_id priority_id status_id assignee_id : option Z) : dict :=
  let links : dict := [] in
  let links := test "type" (href "/api/v3/types/") type_id links in
  let links := test "priority" (href "/api/v3/priorities/") priority_id links in
  let links := test "status" (href "/api/v3/statuses/") status_id links in
  test "assignee" (href "/api/v3/users/") assignee_id links.

Definition create_work_package_payload (subject : string) (description : option string)
    (type_id priority_id status_id assignee_id : option Z)
    (start_date due_date estimated_time : option string) : dict :=
  let payload := [("subject", JStr subject)] in
  let payload := set_if_truthy "description" JStr raw_text description payload in
  let payload := set_if_truthy "startDate" JStr JStr start_date payload in
  let payload := set_if_truthy "dueDate" JStr JStr due_date payload in
  let payload := set_if_truthy "estimatedTime" JStr JStr estimated_time payload in
  let links := work_package_links (fun k f o d => set_if_truthy k JInt f o d) type_id priority_id status_id assignee_id in
  match links with
  | [] => payload
  | _ => dict_set "_links" (JDict links) payload
  end.

(** [create_work_package]; [notify] defaults to [True] in the source. *)
Definition create_work_package (project_id : Z) (subject : string) (description : option string)
    (type_id priority_id status_id assignee_id : option Z)
    (start_date due_date estimated_time : option string) (notify : bool) : M json :=
  let api_url := "https://" +++ config_host +++ "/api/v3/projects/" +++ z_str project_id +++ "/work_packages" in
  let headers := auth_headers config_xcred in
  let params := notify_params notify in
  let payload := create_work_package_payload subject description type_id priority_id
                   status_id assignee_id start_date due_date estimated_time in
  try_except
    (response <- call_make_request [("url", JStr api_url); ("method", JStr "POST");
                                    ("headers", headers); ("params", params);
                                    ("json", JDict payload)];;
     ret (JStr (json_dumps response)))
    (fun e => ret (JStr ("Error creating work package in project " +++ z_str project_id
                         +++ ": " +++ exn_str e))).

Definition default_status_filter : json :=
  JDict [("status_id", JDict [("operator", JStr "o"); ("values", JNull)])].

(** [*filters] in a list display: iterating a list gives its elements,
    a dict its keys, a str its characters; other values are not
    iterable. *)
Definition py_iter (j : json) : option (list json) :=
  match j with
  | JList l => Some l
  | JDict d => Some (map (fun kv => JStr (fst kv)) d)
  | JStr s => Some (map (fun c => JStr (String c EmptyString)) (chars s))
  | _ => None
  end.

Definition list_work_packages_params (effective_filters : list json) : dict :=
  [("offset", JInt 1); ("pageSize", JInt 20);
   ("filters", JStr (json_dumps (JList effective_filters)));
   ("sortBy", JStr (json_dumps (JList [JList [JStr "id"; JStr "asc"]])));
   ("showSums", JStr "false");
   ("timestamps", JStr "PT0S")].

Definition list_work_packages (filters : option json) : M json :=
  let api_url := "https://" +++ config_host +++ "/api/v3/work_packages" in
  let headers := auth_headers config_xcred in
  let effective :=
    match filters with
    | None => ret [default_status_filter]
    | Some (JList []) => ret []
    | Some f =>
        match py_iter f with
        | Some l => ret (default_status_filter :: l)
        | None => raise (TypeError "Value after * must be an iterable")
        end
    end in
  effective_filters <- effective;;
  let params := list_work_packages_params effective_filters in
  try_except
    (response <- call_make_request [("url", JStr api_url); ("method", JStr "GET");
                                    ("headers", headers); ("params", JDict params)];;
     ret (JStr (json_dumps response)))
    (fun e => ret (JStr ("Error listing work packages: " +++ exn_str e))).

Definition update_work_package_payload (lock_version : Z) (subject description : option string)
    (percentage_done type_id priority_id status_id assignee_id : option Z)
    (start_date due_date estimated_time : option string) : dict :=
  let payload := [("lockVersion", JInt lock_version)] in
  let payload := set_if_some "subject" JStr subject payload in
  let payload := set_if_some "percentageDone" JInt percentage_done payload in
  let payload := set_if_some "startDate" JStr start_date payload in
  let payload := set_if_some "dueDate" JStr due_date payload in
  let payload := set_if_some "estimatedTime" JStr estimated_time payload in
  let payload := set_if_some "description" raw_text description payload in
  let links := work_package_links (fun k f o d => set_if_some k f o d)
                 type_id priority_id status_id assignee_id in
  match links with
  | [] => payload
  | _ => dict_set "_links" (JDict links) payload
  end.

(** [update_work_package]; [lock_version] has no default in the source. *)
Definition update_work_package (work_package_id lock_version : Z) (subject description : option string)
    (percentage_done type_id priority_id status_id assignee_id : option Z)
    (start_date due_date estimated_time : option string) (notify : bool) : M json :=
  let api_url := "https://" +++ config_host +++ "/api/v3/work_packages/" +++ z_str work_package_id in
  let headers := auth_headers config_xcred in
  let params := notify_params notify in
  let payload := update_work_package_payload lock_version subject description percentage_done
                   type_id priority_id status_id assignee_id start_date due_date estimated_time in
  try_except
    (response <- call_make_request [("url", JStr api_url); ("method", JStr "PATCH");
                                    ("headers", headers); ("params", params);
                                    ("json", JDict payload)];;
     ret (JStr (json_dumps response)))
    (fun e => ret (JStr ("Error updating work package " +++ z_str work_package_id
                         +++ ": " +++ exn_str e))).

Definition comment_work_package (work_package_id : Z) (comment_text : string) (notify : bool) : M json :=
  let api_url := "https://" +++ config_host +++ "/api/v3/work_packages/" +++ z_str work_package_id +++ "/activities" in
  let headers := auth_headers config_xcred in
  let params := notify_params notify in
  let payload := [("_type", JStr "Comment"); ("comment", raw_text comment_text)] in
  try_except
    (response <- call_make_request [("url", JStr api_url); ("method", JStr "POST");
                                    ("headers", headers); ("params", params);
                                    ("json", JDict payload)];;
     ret (JStr (json_dumps response)))
    (fun e => ret (JStr ("Error commenting on work package " +++ z_str work_package_id
                         +++ ": " +++ exn_str e))).

Definition add_work_package_watcher (work_package_id user_id : Z) : M json :=
  let api_url := "https://" +++ config_host +++ "/api/v3/work_packages/" +++ z_str work_package_id +++ "/watchers" in
  let headers := auth_headers config_xcred in
  let payload := [("_links", JDict [("user", href "/api/v3/users/" user_id)])] in
  try_except
    (response <- call_make_request [("url", JStr api_url); ("method", JStr "POST");
                                    ("headers", headers); ("json", JDict payload)];;
     ret (JStr (json_dumps response)))
    (fun e => ret (JStr ("Error adding watcher to work package " +++ z_str work_package_id
                         +++ ": " +++ exn_str e))).

(** The configuration prologue shared by [view_activity],
    [update_activity], [execute_custom_action] and the operations after
    them in the source:
    [host = os.getenv("OPENPROJECT_HOST", "pm.v.spaceagecu.org")]
    [api_key = os.getenv("OPENPROJECT_API_KEY", api_key)].
    The second line makes [api_key] a local of the function, and its
    right-hand side reads that local before it is assigned. *)
Definition env_prologue : M (list (string * string)) :=
  let locals := [("host", getenv "OPENPROJECT_HOST" "pm.v.spaceagecu.org")] in
  default <- read_local locals "api_key";;
  ret (("api_key", getenv "OPENPROJECT_API_KEY" default) :: locals).

Definition view_activity (activity_id : Z) : M json :=
  locals <- env_prologue;;
  host <- read_local locals "host";;
  key <- read_local locals "api_key";;
  let api_url := "https://" +++ host +++ "/api/v3/activities/" +++ z_str activity_id in
  try_except
    (response <- call_make_request [("url", JStr api_url); ("method", JStr "GET");
                                    ("headers", auth_headers key)];;
     ret (JStr (json_dumps response)))
    (fun e => ret (JStr ("Error retrieving activity " +++ z_str activity_id +++ ": " +++ exn_str e))).

Definition update_activity (activity_id : Z) (new_comment_text : string) : M json :=
  locals <- env_prologue;;
  host <- read_local locals "host";;
  key <- read_local locals "api_key";;
  let api_url := "https://" +++ host +++ "/api/v3/activities/" +++ z_str activity_id in
  let payload := [("comment", raw_text new_comment_text)] in
  try_except
    (response <- call_make_request [("url", JStr api_url); ("method", JStr "PATCH");
                                    ("headers", auth_headers key); ("json", JDict payload)];;
     ret (JStr (json_dumps response)))
    (fun e => ret (JStr ("Error updating activity " +++ z_str activity_id +++ ": " +++ exn_str e))).

Definition execute_custom_action_payload (work_package_id lock_version : Z) : dict :=
  [("_links", JDict [("workPackage", href "/api/v3/work_packages/" work_package_id)]);
   ("lockVersion", JInt lock_version)].

Definition execute_custom_action (custom_action_id work_package_id lock_version : Z) : M json :=
  locals <- env_prologue;;
  host <- read_local locals "host";;
  key <- read_local locals "api_key";;
  let api_url := "https://" +++ host +++ "/api/v3/custom_actions/" +++ z_str custom_action_id +++ "/execute" in
  let payload := execute_custom_action_payload work_package_id lock_version in
  try_except
    (response <- call_make_request [("url", JStr api_url); ("method", JStr "POST");
                                    ("headers", auth_headers key); ("json", JDict payload)];;
     ret (JStr (json_dumps response)))
    (fun e => ret (JStr ("Error executing custom action " +++ z_str custom_action_id
                         +++ " on work package " +++ z_str work_package_id +++ ": " +++ exn_str e))).

(** ** The read operations on the imported configuration *)

(** The body shared by the operations that send one request and return
    [json.dumps(response)], or their error text from the [except]
    branch.  Every such operation in the source has this shape. *)
Definition dumps_or_error (kws : list (string * json)) (error_prefix : string) : M json :=
  try_except
    (response <- call_make_request kws;;
     ret (JStr (json_dumps response)))
    (fun e => ret (JStr (error_prefix +++ exn_str e))).

Definition view_project (project_id : Z) : M json :=
  let api_url := "https://" +++ config_host +++ "/api/v3/projects/" +++ z_str project_id in
  let headers := auth_headers config_xcred in
  dumps_or_error [("url", JStr api_url); ("method", JStr "GET"); ("headers", headers)]
    ("Error retrieving project " +++ z_str project_id +++ ": ").

Definition list_statuses : M json :=
  let api_url := "https://" +++ config_host +++ "/api/v3/statuses" in
  let headers := auth_headers config_xcred in
  dumps_or_error [("url", JStr api_url); ("method", JStr "GET"); ("headers", headers)]
    "Error retrieving work package statuses: ".

(** [status_id: Union[int, str]], formatted by the f-strings. *)
Inductive int_or_str : Type :=
| IntId (z : Z)
| StrId (s : string).

Definition int_or_str_fmt (x : int_or_str) : string :=
  match x with IntId z => z_str z | StrId s => s end.

Definition view_project_status (status_id : int_or_str) : M json :=
  let api_url := "https://" +++ config_host +++ "/api/v3/project_statuses/" +++ int_or_str_fmt status_id in
  let headers := auth_headers config_xcred in
  dumps_or_error [("url", JStr api_url); ("method", JStr "GET"); ("headers", headers)]
    ("Error retrieving project status " +++ int_or_str_fmt status_id +++ ": ").

Definition get_project_available_assignees (project_id : Z) : M json :=
  let api_url := "https://" +++ config_host +++ "/api/v3/projects/" +++ z_str project_id
                 +++ "/available_assignees" in
  let headers := auth_headers config_xcred in
  dumps_or_error [("url", JStr api_url); ("method", JStr "GET"); ("headers", headers)]
    ("Error retrieving available assignees for project " +++ z_str project_id +++ ": ").

Definition view_work_package_params (timestamps : option (list string)) : dict :=
  let params : dict := [] in
  set_if_some "timestamps" (fun l => JStr (join_comma l)) timestamps params.

Definition view_work_package (work_package_id : Z) (timestamps : option (list string)) : M json :=
  let api_url := "https://" +++ config_host +++ "/api/v3/work_packages/" +++ z_str work_package_id in
  let headers := auth_headers config_xcred in
  let params := view_work_package_params timestamps in
  dumps_or_error [("url", JStr api_url); ("method", JStr "GET"); ("headers", headers);
                  ("params", JDict params)]
    ("Error retrieving work package " +++ z_str work_package_id +++ ": ").

Definition list_work_package_activities (work_package_id : Z) : M json :=
  let api_url := "https://" +++ config_host +++ "/api/v3/work_packages/" +++ z_str work_package_id
                 +++ "/activities" in
  let headers := auth_headers config_xcred in
  dumps_or_error [("url", JStr api_url); ("method", JStr "GET"); ("headers", headers)]
    ("Error retrieving activities for work package " +++ z_str work_package_id +++ ": ").

Definition get_work_package_available_assignees (work_package_id : Z) : M json :=
  let api_url := "https://" +++ config_host +++ "/api/v3/work_packages/" +++ z_str work_package_id
                 +++ "/available_assignees" in
  let headers := auth_headers config_xcred in
  dumps_or_error [("url", JStr api_url); ("method", JStr "GET"); ("headers", headers)]
    ("Error retrieving available assignees for work package " +++ z_str work_package_id +++ ": ").

Definition get_work_package_available_watchers (work_package_id : Z) : M json :=
  let api_url := "https://" +++ config_host +++ "/api/v3/work_packages/" +++ z_str work_package_id
                 +++ "/available_watchers" in
  let headers := auth_headers config_xcred in
  dumps_or_error [("url", JStr api_url); ("method", JStr "GET"); ("headers", headers)]
    ("Error retrieving available watchers for work package " +++ z_str work_package_id +++ ": ").

Definition list_work_package_watchers (work_package_id : Z) : M json :=
  let api_url := "https://" +++ config_host +++ "/api/v3/work_packages/" +++ z_str work_package_id
                 +++ "/watchers" in
  let headers := auth_headers config_xcred in
  dumps_or_error [("url", JStr api_url); ("method", JStr "GET"); ("headers", headers)]
    ("Error retrieving watchers for work package " +++ z_str work_package_id +++ ": ").

Definition remove_work_package_watcher (work_package_id user_id : Z) : M json :=
  let api_url := "https://" +++ config_host +++ "/api/v3/work_packages/" +++ z_str work_package_id
                 +++ "/watchers/" +++ z_str user_id in
  let headers := auth_headers config_xcred in
  try_except
    (response <- call_make_request [("url", JStr api_url); ("method", JStr "DELETE");
                                    ("headers", headers)];;
     ret (JStr ("Successfully removed user " +++ z_str user_id +++ " as watcher from work package "
                +++ z_str work_package_id +++ ". Response: " +++ py_str response)))
    (fun e => ret (JStr ("Error removing watcher from work package " +++ z_str work_package_id
                         +++ ": " +++ exn_str e))).

(** ** The operations that read [OPENPROJECT_HOST] and
    [OPENPROJECT_API_KEY] from the environment *)

Definition list_work_package_attachments (work_package_id : Z) : M json :=
  locals <- env_prologue;;
  host <- read_local locals "host";;
  key <- read_local locals "api_key";;
  let api_url := "https://" +++ host +++ "/api/v3/work_packages/" +++ z_str work_package_id
                 +++ "/attachments" in
  dumps_or_error [("url", JStr api_url); ("method", JStr "GET"); ("headers", auth_headers key)]
    ("Error retrieving attachments for work package " +++ z_str work_package_id +++ ": ").

Definition view_attachment (attachment_id : Z) : M json :=
  locals <- env_prologue;;
  host <- read_local locals "host";;
  key <- read_local locals "api_key";;
  let api_url := "https://" +++ host +++ "/api/v3/attachments/" +++ z_str attachment_id in
  dumps_or_error [("url", JStr api_url); ("method", JStr "GET"); ("headers", auth_headers key)]
    ("Error retrieving attachment " +++ z_str attachment_id +++ ": ").

Definition delete_attachment (attachment_id : Z) : M json :=
  locals <- env_prologue;;
  host <- read_local locals "host";;
  key <- read_local locals "api_key";;
  let api_url := "https://" +++ host +++ "/api/v3/attachments/" +++ z_str attachment_id in
  try_except
    (response <- call_make_request [("url", JStr api_url); ("method", JStr "DELETE");
                                    ("headers", auth_headers key)];;
     ret (JStr ("Successfully deleted attachment " +++ z_str attachment_id
                +++ ". Response: " +++ py_str response)))
    (fun e => ret (JStr ("Error deleting attachment " +++ z_str attachment_id +++ ": " +++ exn_str e))).

Definition get_custom_action (custom_action_id : Z) : M json :=
  locals <- env_prologue;;
  host <- read_local locals "host";;
  key <- read_local locals "api_key";;
  let api_url := "https://" +++ host +++ "/api/v3/custom_actions/" +++ z_str custom_action_id in
  dumps_or_error [("url", JStr api_url); ("method", JStr "GET"); ("headers", auth_headers key)]
    ("Error retrieving custom action " +++ z_str custom_action_id +++ ": ").

Definition get_work_package_file_links_params (storage_filter : option string) : dict :=
  let params : dict := [] in
  set_if_truthy "filters" JStr
    (fun s => JStr (json_dumps (JList [JDict [("storage", JDict [("operator", JStr "=");
                                                                 ("values", JList [JStr s])])]])))
    storage_filter params.

Definition get_work_package_file_links (work_package_id : Z) (storage_filter : option string) : M json :=
  locals <- env_prologue;;
  host <- read_local locals "host";;
  key <- read_local locals "api_key";;
  let api_url := "https://" +++ host +++ "/api/v3/work_packages/" +++ z_str work_package_id
                 +++ "/file_links" in
  let params := get_work_package_file_links_params storage_filter in
  dumps_or_error [("url", JStr api_url); ("method", JStr "GET"); ("headers", auth_headers key);
                  ("params", JDict params)]
    ("Error retrieving file links for work package " +++ z_str work_package_id +++ ": ").

Definition get_file_link (file_link_id : Z) : M json :=
  locals <- env_prologue;;
  host <- read_local locals "host";;
  key <- read_local locals "api_key";;
  let api_url := "https://" +++ host +++ "/api/v3/file_links/" +++ z_str file_link_id in
  dumps_or_error [("url", JStr api_url); ("method", JStr "GET"); ("headers", auth_headers key)]
    ("Error retrieving file link " +++ z_str file_link_id +++ ": ").

Definition list_groups_params (sort_by select_fields filters : option string) : dict :=
  let params : dict := [] in
  let params := set_if_truthy "sortBy" JStr JStr sort_by params in
  let params := set_if_truthy "select" JStr JStr select_fields params in
  set_if_truthy "filters" JStr JStr filters params.

Definition list_groups (sort_by select_fields filters : option string) : M json :=
  locals <- env_prologue;;
  host <- read_local locals "host";;
  key <- read_local locals "api_key";;
  let api_url := "https://" +++ host +++ "/api/v3/groups" in
  let params := list_groups_params sort_by select_fields filters in
  dumps_or_error [("url", JStr api_url); ("method", JStr "GET"); ("headers", auth_headers key);
                  ("params", JDict params)]
    "Error retrieving groups: ".

Definition list_users_params (offset page_size : option Z) (filters sort_by select_fields : option string) : dict :=
  let params := [("offset", opt_json JInt offset); ("pageSize", opt_json JInt page_size)] in
  let params := set_if_truthy "filters" JStr JStr filters params in
  let params := set_if_truthy "sortBy" JStr JStr sort_by params in
  set_if_truthy "select" JStr JStr select_fields params.

(** [list_users]; [offset] and [page_size] default to [1] and [20]. *)
Definition list_users (offset page_size : option Z) (filters sort_by select_fields : option string) : M json :=
  locals <- env_prologue;;
  host <- read_local locals "host";;
  key <- read_local locals "api_key";;
  let api_url := "https://" +++ host +++ "/api/v3/users" in
  let params := list_users_params offset page_size filters sort_by select_fields in
  dumps_or_error [("url", JStr api_url); ("method", JStr "GET"); ("headers", auth_headers key);
                  ("params", JDict params)]
    "Error retrieving user list: ".

Definition get_notification_collection_params (offset page_size : option Z)
    (sort_by group_by filters : option string) : dict :=
  let params := [("offset", opt_json JInt offset); ("pageSize", opt_json JInt page_size)] in
  let params := set_if_truthy "sortBy" JStr JStr sort_by params in
  let params := set_if_truthy "groupBy" JStr JStr group_by params in
  set_if_truthy "filters" JStr JStr filters params.

(** [get_notification_collection]; [offset] and [page_size] default to
    [1] and [20]. *)
Definition get_notification_collection (offset page_size : option Z)
    (sort_by group_by filters : option string) : M json :=
  locals <- env_prologue;;
  host <- read_local locals "host";;
  key <- read_local locals "api_key";;
  let api_url := "https://" +++ host +++ "/api/v3/notifications" in
  let params := get_notification_collection_params offset page_size sort_by group_by filters in
  dumps_or_error [("url", JStr api_url); ("method", JStr "GET"); ("headers", auth_headers key);
                  ("params", JDict params)]
    "Error retrieving notifications: ".

Definition get_notification_detail (notification_id detail_id : Z) : M json :=
  locals <- env_prologue;;
  host <- read_local locals "host";;
  key <- read_local locals "api_key";;
  let api_url := "https://" +++ host +++ "/api/v3/notifications/" +++ z_str notification_id
                 +++ "/details/" +++ z_str detail_id in
  dumps_or_error [("url", JStr api_url); ("method", JStr "GET"); ("headers", auth_headers key)]
    ("Error retrieving detail " +++ z_str detail_id +++ " for notification "
     +++ z_str notification_id +++ ": ").

End Gateway.

(** ** The local endpoint catalog *)

(** A row of the [api_endpoints] table. *)
Record catalog_row : Type := mk_row {
  row_path : string;
  row_method : string;
  row_description : string;
  row_request_body : string;
  row_responses : string
}.

(** SQLite's [LIKE] with no [ESCAPE] clause: [%] matches any sequence,
    [_] any single character, and ASCII letters match regardless of
    case. *)
Fixpoint like_match (p s : list ascii) : bool :=
  match p with
  | [] => match s with [] => true | _ :: _ => false end
  | c :: p' =>
      if Ascii.eqb c "%" then
        (fix star (t : list ascii) : bool :=
           like_match p' t || match t with [] => false | _ :: t' => star t' end) s
      else
        match s with
        | [] => false
        | d :: s' =>
            (Ascii.eqb c "_" || Ascii.eqb (lower_ascii c) (lower_ascii d)) && like_match p' s'
        end
  end.

(** The bound parameter [f"%{query}%"]. *)
Definition like_pattern (query : string) : list ascii := "%"%char :: chars query ++ ["%"%char].

(** One element of [search_endpoint]'s list comprehension. *)
Definition row_entry (r : catalog_row) : option json :=
  let request_body :=
    if String.eqb (row_request_body r) "None" then Some JNull
    else json_loads (row_request_body r) in
  match request_body with
  | None => None
  | Some rb =>
      match json_loads (row_responses r) with
      | None => None
      | Some resp =>
          Some (JDict [("path", JStr (row_path r)); ("method", JStr (row_method r));
                       ("description", JStr (row_description r));
                       ("request_body", rb); ("responses", resp)])
      end
  end.

Fixpoint map_entries (rows : list catalog_row) : outcome (list json) :=
  match rows with
  | [] => Ok []
  | r :: rs =>
      match row_entry r with
      | None => Raise JSONDecodeError
      | Some e =>
          match map_entries rs with
          | Ok es => Ok (e :: es)
          | Raise x => Raise x
          end
      end
  end.

(** [search_endpoint]: the [SELECT ... WHERE path LIKE ?] over the
    catalog's rows, in table order, then the conversion of each row. *)
Definition search_endpoint (catalog : list catalog_row) (query : string) : outcome (list json) :=
  map_entries (filter (fun r => like_match (like_pattern query) (chars (row_path r))) catalog).

Definition field (d : json) (k : string) : json :=
  match d with
  | JDict kvs => match dict_get k kvs with Some v => v | None => JNull end
  | _ => JNull
  end.

Definition available_path (info : json) : json :=
  JDict [("path", field info "path"); ("description", field info "description");
         ("method", field info "method"); ("request_body", field info "request_body");
         ("response", field info "responses")].

Definition query_api (catalog : list catalog_row) (query : string) : outcome json :=
  match search_endpoint catalog query with
  | Raise e => Raise e
  | Ok [] => Ok (JStr (json_dumps (JDict [("error", JStr "No matching endpoints found")])))
  | Ok results =>
      Ok (JStr (json_dumps (JDict [("available_paths", JList (map available_path results))])))
  end.

(** ** Predicates used in the statements *)

Fixpoint nodup_keys (ks : list string) : bool :=
  match ks with
  | [] => true
  | k :: ks' => negb (mem_str k ks') && nodup_keys ks'
  end.

(** The values a Python program can hold: a dict never has a key twice. *)
Fixpoint json_wf (j : json) : bool :=
  match j with
  | JList l =>
      (fix go (l : list json) : bool :=
         match l with [] => true | x :: r => json_wf x && go r end) l
  | JDict kvs =>
      nodup_keys (map fst kvs)
      && (fix go (ms : list (string * json)) : bool :=
            match ms with [] => true | (_, v) :: r => json_wf v && go r end) kvs
  | _ => true
  end.

(** The tail of a serialised list or dict after its first element. *)
Fixpoint dumps_items (ys : list json) : list ascii :=
  match ys with
  | [] => []
  | y :: ys' => chars ", " ++ dumps_l y ++ dumps_items ys'
  end.

Fixpoint dumps_members (ms : list (string * json)) : list ascii :=
  match ms with
  | [] => []
  | (k, v) :: ms' => chars ", " ++ encode_string k ++ chars ": " ++ dumps_l v ++ dumps_members ms'
  end.

(** What may follow a number in a serialisation so that the scanner stops
    there. *)
Definition number_end_ok (rest : list ascii) : bool :=
  match rest with
  | [] => true
  | c :: _ =>
      negb (is_digit c) && negb (Ascii.eqb c ".") && negb (Ascii.eqb c "e")
      && negb (Ascii.eqb c "E")
  end.

(** The first characters a serialisation can start with. *)
Definition head_ok (c : ascii) : bool :=
  is_digit c || Ascii.eqb c "-" || Ascii.eqb c "n" || Ascii.eqb c "t"
  || Ascii.eqb c "f" || Ascii.eqb c dq || Ascii.eqb c "[" || Ascii.eqb c "{".

(** Substring tests, with a character comparison [eq]. *)
Fixpoint prefix_by (eq : ascii -> ascii -> bool) (p s : list ascii) : bool :=
  match p, s with
  | [], _ => true
  | c :: p', d :: s' => eq c d && prefix_by eq p' s'
  | _ :: _, [] => false
  end.

Fixpoint contains_by (eq : ascii -> ascii -> bool) (q s : list ascii) : bool :=
  prefix_by eq q s || match s with [] => false | _ :: s' => contains_by eq q s' end.

Definition eq_ci (c d : ascii) : bool := Ascii.eqb (lower_ascii c) (lower_ascii d).

(** [query] occurs in [s], comparing ASCII letters without case. *)
Definition contains_ci (query s : string) : bool := contains_by eq_ci (chars query) (chars s).

(** [query] occurs in [s], character for character. *)
Definition contains_cs (query s : string) : bool := contains_by Ascii.eqb (chars query) (chars s).

Definition no_wildcards (query : string) : bool :=
  forallb (fun c => negb (Ascii.eqb c "%" || Ascii.eqb c "_")) (chars query).

(** What [make_request] returns once the client has sent its request. *)
Definition response_value (resp : net_result) : json :=
  match resp with
  | NetFailure msg => request_failed_record msg
  | NetResponse status text =>
      if is_2xx status then
        match json_loads text with
        | Some j => j
        | None => request_failed_record "Expecting value"
        end
      else http_error_record status text
  end.

(** The request an operation hands to the client for a bodiless call
    with the usual two headers: [make_request] appends its User-Agent. *)
Definition api_request (method url key : string) (params : json) : request :=
  {| rq_method := method; rq_url := url;
     rq_headers := JDict [("Authorization", JStr ("Basic " +++ key));
                          ("Content-Type", JStr "application/json");
                          ("User-Agent", JStr USER_AGENT)];
     rq_params := Some params; rq_json := None |}.

(** The key [k] when the optional value is given. *)
Definition present {A} (k : string) (o : option A) : list string :=
  match o with Some _ => [k] | None => [] end.

(** The key [k] when the test holds. *)
Definition present_if (k : string) (b : bool) : list string := if b then [k] else [].

(** Every character is ASCII (below 128). *)
Definition ascii_only (cs : list ascii) : bool :=
  forallb (fun c => (nat_of_ascii c <? 128)%nat) cs.

(** ** [pm_launch.py]: the tool functions of the agent launcher *)

Module PmLaunch.

Definition PM_BASE_URL : string := "http://172.18.33.132:8034".
Definition pm_headers : json := JDict [("Content-Type", JStr "application/json")].

(** What [requests.post] comes back with: the final response (status
    code, reason phrase, body text) or a failure to get one (connection
    error, timeout). *)
Inductive pm_net : Type :=
| PmResponse (status : Z) (reason text : string)
| PmFailure (msg : string).

(** The exceptions raised on the paths of these functions.  All three
    are subclasses of [requests.exceptions.RequestException] (the decode
    error since requests 2.27), so [except RequestException] and
    [except Exception] catch the same ones here. *)
Inductive req_exn : Type :=
| ConnectionError (msg : string)
| HTTPError (msg : string)
| RequestsJSONDecodeError.

(** [str(e)]; the position suffix of a decode error is not modelled. *)
Definition req_exn_str (e : req_exn) : string :=
  match e with
  | ConnectionError m => m
  | HTTPError m => m
  | RequestsJSONDecodeError => "Expecting value"
  end.

(** A call that may raise a request exception and logs the requests it
    sends. *)
Definition PM (A : Type) : Type := list request -> (req_exn + A) * list request.

Definition pm_ret {A} (a : A) : PM A := fun log => (inr a, log).
Definition pm_raise {A} (e : req_exn) : PM A := fun log => (inl e, log).
Definition pm_bind {A B} (m : PM A) (k : A -> PM B) : PM B :=
  fun log =>
    match m log with
    | (inr a, log') => k a log'
    | (inl e, log') => (inl e, log')
    end.

(** [try: m except ... as e: h(e)] *)
Definition pm_try {A} (m : PM A) (h : req_exn -> PM A) : PM A :=
  fun log =>
    match m log with
    | (inl e, log') => h e log'
    | r => r
    end.

(** [response.json()] *)
Definition response_json (resp : Z * string * string) : PM json :=
  let '(_, _, text) := resp in
  match json_loads text with
  | Some j => pm_ret j
  | None => pm_raise RequestsJSONDecodeError
  end.

(** [response.raise_for_status()]: statuses 400 to 599 raise
    [HTTPError]; the response's URL is the one posted to. *)
Definition raise_for_status (url : string) (resp : Z * string * string) : PM unit :=
  let '(status, reason, _) := resp in
  if (400 <=? status)%Z && (status <? 500)%Z then
    pm_raise (HTTPError (z_str status +++ " Client Error: " +++ reason +++ " for url: " +++ url))
  else if (500 <=? status)%Z && (status <? 600)%Z then
    pm_raise (HTTPError (z_str status +++ " Server Error: " +++ reason +++ " for url: " +++ url))
  else pm_ret tt.

Definition error_record (msg : string) : json := JDict [("error", JStr msg)].

(** The request [requests.post(url, headers=pm_headers, json=payload)]
    sends. *)
Definition post_request (url : string) (payload : json) : request :=
  {| rq_method := "post"; rq_url := url; rq_headers := pm_headers;
     rq_params := None; rq_json := Some payload |}.

Section Launcher.

(** The PM server behind [PM_BASE_URL], and [datetime.now().isoformat()]. *)
Variable pm_upstream : request -> pm_net.
Variable now_iso : string.

(** [requests.post(url, headers=pm_headers, json=payload)] *)
Definition post (url : string) (payload : json) : PM (Z * string * string) :=
  fun log =>
    let r := post_request url payload in
    (match pm_upstream r with
     | PmResponse status reason text => inr (status, reason, text)
     | PmFailure msg => inl (ConnectionError msg)
     end, log ++ [r]).

(** The [try] body of the functions that check the status. *)
Definition post_checked (url : string) (payload : json) : PM json :=
  pm_bind (post url payload) (fun response =>
  pm_bind (raise_for_status url response) (fun _ =>
  response_json response)).

(** The [try] body of the functions that do not. *)
Definition post_unchecked (url : string) (payload : json) : PM json :=
  pm_bind (post url payload) (fun response => response_json response).

Definition list_projects (filters : option json) : PM json :=
  let url := PM_BASE_URL +++ "/list_projects" in
  let f := opt_json (fun j => j) filters in
  let payload := if truthy f then f else JDict [] in
  pm_try (post_checked url payload)
    (fun e => pm_ret (error_record ("Failed to retrieve projects list: " +++ req_exn_str e))).

Definition get_project_work_packages_payload (project_id : Z) (offset page_size : option Z)
    (filters sort_by : option json) : dict :=
  let payload := [("project_id", JInt project_id); ("offset", opt_json JInt offset);
                  ("page_size", opt_json JInt page_size)] in
  let payload := set_if_truthy "filters" (fun j => j) (fun j => j) filters payload in
  set_if_truthy "sort_by" (fun j => j) (fun j => j) sort_by payload.

(** [get_project_work_packages]; [offset] and [page_size] default to [1]
    and [20]. *)
Definition get_project_work_packages (project_id : Z) (offset page_size : option Z)
    (filters sort_by : option json) : PM json :=
  let url := PM_BASE_URL +++ "/get_project_work_packages" in
  let payload := get_project_work_packages_payload project_id offset page_size filters sort_by in
  pm_try (post_unchecked url (JDict payload))
    (fun e => pm_ret (error_record (req_exn_str e))).

Definition create_project_payload (name : string) (public : bool)
    (description identifier status_explanation : option string) : dict :=
  let payload := [("name", JStr name); ("public", JBool public)] in
  let payload := set_if_truthy "description" JStr JStr description payload in
  let payload := set_if_truthy "identifier" JStr JStr identifier payload in
  set_if_truthy "status_explanation" JStr JStr status_explanation payload.

(** [create_project]; [public] defaults to [True]. *)
Definition create_project (name : string) (public : bool)
    (description identifier status_explanation : option string) : PM json :=
  let url := PM_BASE_URL +++ "/create_project" in
  let payload := create_project_payload name public description identifier status_explanation in
  pm_try (post_unchecked url (JDict payload))
    (fun e => pm_ret (error_record (req_exn_str e))).

Definition create_work_package_payload (project_id : Z) (subject : string) (notify : bool)
    (description : option string) (status_id type_id priority_id : option Z) : dict :=
  let payload := [("project_id", JInt project_id); ("subject", JStr subject);
                  ("notify", JBool notify)] in
  let payload := set_if_truthy "description" JStr JStr description payload in
  let payload := set_if_truthy "status_id" JInt JInt status_id payload in
  let payload := set_if_truthy "type_id" JInt JInt type_id payload in
  set_if_truthy "priority_id" JInt JInt priority_id payload.

(** [create_work_package]; [notify] defaults to [True]. *)
Definition create_work_package (project_id : Z) (subject : string) (notify : bool)
    (description : option string) (status_id type_id priority_id : option Z) : PM json :=
  let url := PM_BASE_URL +++ "/create_work_package" in
  let payload := create_work_package_payload project_id subject notify description
                   status_id type_id priority_id in
  pm_try (post_unchecked url (JDict payload))
    (fun e => pm_ret (error_record (req_exn_str e))).

Definition update_work_package_payload (work_package_id lock_version : Z) (notify : bool)
    (status_id : option Z) (description : option string) (percentage_done : option Z) : dict :=
  let payload := [("work_package_id", JInt work_package_id); ("lock_version", JInt lock_version);
                  ("notify", JBool notify)] in
  let payload := set_if_truthy "status_id" JInt JInt status_id payload in
  let payload := set_if_truthy "description" JStr JStr description payload in
  set_if_some "percentage_done" JInt percentage_done payload.

(** [update_work_package]; [notify] defaults to [True]. *)
Definition update_work_package (work_package_id lock_version : Z) (notify : bool)
    (status_id : option Z) (description : option string) (percentage_done : option Z) : PM json :=
  let url := PM_BASE_URL +++ "/update_work_package" in
  let payload := update_work_package_payload work_package_id lock_version notify
                   status_id description percentage_done in
  pm_try (post_unchecked url (JDict payload))
    (fun e => pm_ret (error_record (req_exn_str e))).

(** [view_work_package]; [work_package_id] defaults to [None]. *)
Definition view_work_package (work_package_id : option Z) : PM json :=
  let url := PM_BASE_URL +++ "/view_work_package" in
  let current_time := now_iso in
  let payload := [("work_package_id", opt_json JInt work_package_id);
                  ("timestamps", JList [JStr current_time])] in
  pm_try (post_checked url (JDict payload))
    (fun e => pm_ret (error_record ("Failed to retrieve work package: " +++ req_exn_str e))).

(** [comment_work_package]; [notify] defaults to [True]. *)
Definition comment_work_package (work_package_id : Z) (comment_text : string) (notify : bool) : PM json :=
  let url := PM_BASE_URL +++ "/comment_work_package" in
  let payload := [("work_package_id", JInt work_package_id); ("comment_text", JStr comment_text);
                  ("notify", JBool notify)] in
  pm_try (post_checked url (JDict payload))
    (fun e => pm_ret (error_record ("Failed to add comment to WP " +++ z_str work_package_id
                                    +++ ": " +++ req_exn_str e))).

Definition list_statuses : PM json :=
  let url := PM_BASE_URL +++ "/list_statuses" in
  let payload : dict := [] in
  pm_try (post_checked url (JDict payload))
    (fun e => pm_ret (error_record ("Failed to retrieve statuses: " +++ req_exn_str e))).

End Launcher.





End PmLaunch.

(** * Proofs *)

(** ** Custom induction for nested JSON values *)

Section JsonInd.
Variable P : json -> Prop.
Hypothesis HNull : P JNull.
Hypothesis HBool : forall b, P (JBool b).
Hypothesis HInt : forall z, P (JInt z).
Hypothesis HStr : forall s, P (JStr s).
Hypothesis HList : forall l, Forall P l -> P (JList l).
Hypothesis HDict : forall kvs, Forall (fun kv => P (snd kv)) kvs -> P (JDict kvs).

Fixpoint json_ind' (j : json) : P j :=
  match j with
  | JNull => HNull
  | JBool b => HBool b
  | JInt z => HInt z
  | JStr s => HStr s
  | JList l =>
      HList l ((fix go (l : list json) : Forall P l :=
                  match l with
                  | [] => Forall_nil _
                  | x :: r => Forall_cons _ (json_ind' x) (go r)
                  end) l)
  | JDict kvs =>
      HDict kvs ((fix go (ms : list (string * json)) : Forall (fun kv => P (snd kv)) ms :=
                    match ms with
                    | [] => Forall_nil _
                    | kv :: r => Forall_cons _ (json_ind' (snd kv)) (go r)
                    end) kvs)
  end.
End JsonInd.

(** ** Unfolding the serialiser *)

Lemma dumps_list_cons x xs :
  dumps_l (JList (x :: xs)) = "["%char :: dumps_l x ++ dumps_items xs ++ ["]"%char].
Proof.
  reflexivity.
Qed.

Lemma dumps_dict_cons k v kvs :
  dumps_l (JDict ((k, v) :: kvs))
  = "{"%char :: encode_string k ++ chars ": " ++ dumps_l v ++ dumps_members kvs ++ ["}"%char].
Proof.
  reflexivity.
Qed.

(** ** Unfolding the scanner one step *)

Lemma scan_value_S_cons f c r :
  scan_value (S f) (c :: r) =
  if Ascii.eqb c dq then
    match scan_string r [] with Some (x, r') => Some (JStr x, r') | None => None end
  else if Ascii.eqb c "{" then
    match skip_ws r with
    | c' :: r' => if Ascii.eqb c' "}" then Some (JDict [], r') else scan_object f (c' :: r') []
    | [] => None
    end
  else if Ascii.eqb c "[" then
    match skip_ws r with
    | c' :: r' => if Ascii.eqb c' "]" then Some (JList [], r') else scan_array f (c' :: r') []
    | [] => None
    end
  else if Ascii.eqb c "n" then
    match strip_prefix (chars "ull") r with Some r' => Some (JNull, r') | None => None end
  else if Ascii.eqb c "t" then
    match strip_prefix (chars "rue") r with Some r' => Some (JBool true, r') | None => None end
  else if Ascii.eqb c "f" then
    match strip_prefix (chars "alse") r with Some r' => Some (JBool false, r') | None => None end
  else scan_number (c :: r).
Proof. reflexivity. Qed.

Lemma scan_array_S f s acc :
  scan_array (S f) s acc =
  match scan_value f s with
  | None => None
  | Some (v, r) =>
      match skip_ws r with
      | c :: r' =>
          if Ascii.eqb c "," then scan_array f (skip_ws r') (v :: acc)
          else if Ascii.eqb c "]" then Some (JList (List.rev (v :: acc)), r')
          else None
      | [] => None
      end
  end.
Proof. reflexivity. Qed.

Lemma scan_object_S_cons f c r acc :
  scan_object (S f) (c :: r) acc =
  if Ascii.eqb c dq then
    match scan_string r [] with
    | None => None
    | Some (k, r1) =>
        match skip_ws r1 with
        | c1 :: r2 =>
            if Ascii.eqb c1 ":" then
              match scan_value f (skip_ws r2) with
              | None => None
              | Some (v, r3) =>
                  match skip_ws r3 with
                  | c3 :: r4 =>
                      if Ascii.eqb c3 "," then scan_object f (skip_ws r4) ((k, v) :: acc)
                      else if Ascii.eqb c3 "}" then
                        Some (JDict (dict_of_pairs (List.rev ((k, v) :: acc))), r4)
                      else None
                  | [] => None
                  end
              end
            else None
        | [] => None
        end
    end
  else None.
Proof. reflexivity. Qed.

(** ** Strings *)

Lemma scan_string_escape c r acc :
  scan_string (escape_char c ++ r) acc = scan_string r (c :: acc).
Proof. destruct c as [[] [] [] [] [] [] [] []]; reflexivity. Qed.

Lemma scan_string_encoded l rest acc :
  scan_string (flat_map escape_char l ++ dq :: rest) acc
  = Some (string_of_list_ascii (List.rev acc ++ l), rest).
Proof.
  revert acc; induction l as [|c l IH]; intros acc.
  - rewrite app_nil_r. reflexivity.
  - change (flat_map escape_char (c :: l)) with (escape_char c ++ flat_map escape_char l).
    rewrite <- app_assoc, scan_string_escape, IH. simpl. rewrite <- app_assoc. reflexivity.
Qed.

(** ** Numbers *)

Lemma take_digits_uint d rest :
  match rest with [] => True | c :: _ => is_digit c = false end ->
  take_digits (chars (NilEmpty.string_of_uint d) ++ rest)
  = (chars (NilEmpty.string_of_uint d), rest).
Proof.
  intros Hr. induction d; simpl; try (rewrite IHd; reflexivity).
  destruct rest as [|c r]; simpl; [reflexivity|]. rewrite Hr. reflexivity.
Qed.

Lemma uint_chars_head d :
  d <> Nil -> exists c t, chars (NilEmpty.string_of_uint d) = c :: t /\ is_digit c = true.
Proof. destruct d; intros H; try congruence; eexists _, _; split; reflexivity. Qed.

Lemma N_to_uint_nonnil n : N.to_uint n <> Nil.
Proof. destruct n; [discriminate | apply DecimalPos.Unsigned.to_uint_nonnil]. Qed.

Lemma digit_not_special c :
  is_digit c = true ->
  Ascii.eqb c "-" = false /\ Ascii.eqb c dq = false /\ Ascii.eqb c "{" = false
  /\ Ascii.eqb c "[" = false /\ Ascii.eqb c "n" = false /\ Ascii.eqb c "t" = false
  /\ Ascii.eqb c "f" = false.
Proof.
  destruct c as [[] [] [] [] [] [] [] []]; intros H; vm_compute in H;
    try discriminate H; repeat split.
Qed.

Lemma scan_digits_N neg n rest :
  number_end_ok rest = true ->
  scan_digits neg (digits_of_N n ++ rest)
  = Some (JInt (if neg then Z.opp (Z.of_N n) else Z.of_N n), rest).
Proof.
  intros Hr. unfold scan_digits, digits_of_N.
  rewrite take_digits_uint.
  2:{ destruct rest as [|c r]; [exact I|]. simpl in Hr.
      destruct (is_digit c); [discriminate | reflexivity]. }
  destruct (uint_chars_head (N.to_uint n) (N_to_uint_nonnil n)) as [c [t [E _]]].
  rewrite E.
  assert (Hstop : match rest with
                  | c0 :: _ => Ascii.eqb c0 "." || Ascii.eqb c0 "e" || Ascii.eqb c0 "E"
                  | [] => false end = false).
  { destruct rest as [|c0 r]; [reflexivity|]. simpl in Hr.
    destruct (is_digit c0), (Ascii.eqb c0 "."), (Ascii.eqb c0 "e"), (Ascii.eqb c0 "E");
      simpl in *; congruence. }
  rewrite Hstop, <- E. unfold chars.
  rewrite string_of_list_ascii_of_string, NilEmpty.usu, DecimalN.Unsigned.of_to.
  reflexivity.
Qed.

Lemma digits_of_N_head n :
  exists c t, digits_of_N n = c :: t /\ is_digit c = true.
Proof. apply uint_chars_head, N_to_uint_nonnil. Qed.

Lemma scan_number_int_repr z rest :
  number_end_ok rest = true -> scan_number (int_repr z ++ rest) = Some (JInt z, rest).
Proof.
  intros Hr. destruct z as [|p|p].
  - destruct (digits_of_N_head 0%N) as [c [t [E Hd]]].
    unfold int_repr. simpl Z.to_N. rewrite E. unfold scan_number.
    rewrite <- app_comm_cons. cbv beta iota.
    destruct (digit_not_special c Hd) as [-> _]. cbv beta iota.
    rewrite app_comm_cons, <- E, scan_digits_N by exact Hr. reflexivity.
  - destruct (digits_of_N_head (Npos p)) as [c [t [E Hd]]].
    unfold int_repr. simpl Z.to_N. rewrite E. unfold scan_number.
    rewrite <- app_comm_cons. cbv beta iota.
    destruct (digit_not_special c Hd) as [-> _]. cbv beta iota.
    rewrite app_comm_cons, <- E, scan_digits_N by exact Hr. reflexivity.
  - unfold int_repr. rewrite <- app_comm_cons. unfold scan_number.
    change (Ascii.eqb "-" "-") with true. cbv beta iota.
    rewrite scan_digits_N by exact Hr. reflexivity.
Qed.

(** ** Shape of a serialisation *)

Lemma dumps_head j : exists c t, dumps_l j = c :: t /\ head_ok c = true.
Proof.
  destruct j as [| [] | z | s | [|x xs] | [|[k v] kvs]];
    try (eexists _, _; split; reflexivity).
  destruct z as [|p|p].
  - eexists _, _; split; reflexivity.
  - destruct (digits_of_N_head (Npos p)) as [c [t [E Hd]]].
    exists c, t. split; [exact E|]. unfold head_ok. rewrite Hd. reflexivity.
  - eexists _, _; split; reflexivity.
Qed.

Lemma head_ok_props c :
  head_ok c = true ->
  is_ws c = false /\ Ascii.eqb c "]" = false /\ Ascii.eqb c "}" = false.
Proof.
  destruct c as [[] [] [] [] [] [] [] []]; intros H; vm_compute in H;
    try discriminate H; repeat split.
Qed.

Lemma skip_ws_dumps j rest : skip_ws (dumps_l j ++ rest) = dumps_l j ++ rest.
Proof.
  destruct (dumps_head j) as [c [t [E H]]]. rewrite E.
  destruct (head_ok_props c H) as [Hws _]. simpl. rewrite Hws. reflexivity.
Qed.

(** ** Python dicts built from distinct keys *)

Lemma nodup_keys_app_not_mem l1 x l2 :
  nodup_keys (l1 ++ x :: l2) = true -> mem_str x l1 = false.
Proof.
  induction l1 as [|a l1 IH]; simpl; [reflexivity|].
  intros H. apply andb_prop in H as [Ha H].
  rewrite (IH H). destruct (String.eqb_spec x a) as [->|]; [|reflexivity].
  exfalso. assert (Hm : mem_str a (l1 ++ a :: l2) = true).
  { unfold mem_str. apply existsb_exists. exists a. split.
    - apply in_or_app. right. left. reflexivity.
    - apply String.eqb_refl. }
  rewrite Hm in Ha. discriminate.
Qed.

Lemma dict_set_fresh k v d :
  mem_str k (map fst d) = false -> dict_set k v d = d ++ [(k, v)].
Proof.
  induction d as [|[k' v'] d IH]; simpl; [reflexivity|].
  intros H. apply orb_false_iff in H as [H1 H2].
  rewrite H1, IH by exact H2. reflexivity.
Qed.

Lemma fold_dict_set_fresh ps d :
  nodup_keys (map fst (d ++ ps)) = true ->
  fold_left (fun d kv => dict_set (fst kv) (snd kv) d) ps d = d ++ ps.
Proof.
  revert d; induction ps as [|[k v] ps IH]; intros d H; simpl.
  - rewrite app_nil_r. reflexivity.
  - rewrite dict_set_fresh.
    + rewrite IH; rewrite <- app_assoc; [reflexivity|exact H].
    + rewrite map_app in H. simpl in H. exact (nodup_keys_app_not_mem _ _ _ H).
Qed.

Lemma dict_of_pairs_nodup ps : nodup_keys (map fst ps) = true -> dict_of_pairs ps = ps.
Proof. intros H. unfold dict_of_pairs. apply (fold_dict_set_fresh ps []). exact H. Qed.

(** ** Well-formedness, element by element *)

Lemma json_wf_list x xs :
  json_wf (JList (x :: xs)) = true -> json_wf x = true /\ json_wf (JList xs) = true.
Proof. simpl. intros H. apply andb_prop in H. exact H. Qed.

Lemma json_wf_dict k v kvs :
  json_wf (JDict ((k, v) :: kvs)) = true ->
  json_wf v = true /\ nodup_keys (map fst ((k, v) :: kvs)) = true
  /\ json_wf (JDict kvs) = true.
Proof.
  simpl. intros H. apply andb_prop in H as [H1 H2]. apply andb_prop in H2 as [H2 H3].
  apply andb_prop in H1 as [H0 H1]. split; [exact H2|]. split.
  - simpl. rewrite H0, H1. reflexivity.
  - simpl. rewrite H1. exact H3.
Qed.

(** ** Reading back a serialisation *)

Lemma int_repr_head z :
  exists c t, int_repr z = c :: t /\ (is_digit c || Ascii.eqb c "-") = true.
Proof.
  destruct z as [|p|p].
  - eexists _, _; split; reflexivity.
  - destruct (digits_of_N_head (Npos p)) as [c [t [E Hd]]].
    exists c, t. split; [exact E|]. rewrite Hd. reflexivity.
  - eexists _, _; split; reflexivity.
Qed.

Lemma number_head_props c :
  (is_digit c || Ascii.eqb c "-") = true ->
  Ascii.eqb c dq = false /\ Ascii.eqb c "{" = false /\ Ascii.eqb c "[" = false
  /\ Ascii.eqb c "n" = false /\ Ascii.eqb c "t" = false /\ Ascii.eqb c "f" = false.
Proof.
  destruct c as [[] [] [] [] [] [] [] []]; intros H; vm_compute in H;
    try discriminate H; repeat split.
Qed.

Lemma dumps_length_pos j : 1 <= length (dumps_l j).
Proof. destruct (dumps_head j) as [c [t [E _]]]. rewrite E. simpl. lia. Qed.

Lemma scan_array_items xs :
  Forall (fun j => forall fuel rest, json_wf j = true -> number_end_ok rest = true ->
            length (dumps_l j) <= fuel -> scan_value fuel (dumps_l j ++ rest) = Some (j, rest)) xs ->
  forall x,
  (forall fuel rest, json_wf x = true -> number_end_ok rest = true ->
     length (dumps_l x) <= fuel -> scan_value fuel (dumps_l x ++ rest) = Some (x, rest)) ->
  forall fuel acc rest,
  json_wf (JList (x :: xs)) = true ->
  length (dumps_l x) + length (dumps_items xs) + 1 <= fuel ->
  scan_array fuel (dumps_l x ++ dumps_items xs ++ "]"%char :: rest) acc
  = Some (JList (List.rev acc ++ x :: xs), rest).
Proof.
  induction xs as [|y ys IH]; intros HF x Hx fuel acc rest Hwf Hlen;
    (destruct fuel as [|f]; [lia|]);
    apply json_wf_list in Hwf as [Hwx Hwxs]; rewrite scan_array_S.
  - simpl dumps_items. simpl in Hlen.
    rewrite Hx by (first [exact Hwx | reflexivity | lia]).
    simpl. reflexivity.
  - inversion HF as [|? ? Hy HFys]; subst.
    simpl dumps_items in *. simpl in Hlen. rewrite ?length_app in Hlen.
    rewrite Hx by (first [exact Hwx | reflexivity | lia]).
    simpl. rewrite <- !app_assoc, skip_ws_dumps.
    rewrite IH; [ | exact HFys | exact Hy | exact Hwxs | lia].
    simpl. rewrite <- app_assoc. reflexivity.
Qed.

Lemma skip_ws_encode k rest : skip_ws (encode_string k ++ rest) = encode_string k ++ rest.
Proof. reflexivity. Qed.

Local Arguments encode_string : simpl never.

Lemma scan_object_members kvs :
  Forall (fun kv => forall fuel rest, json_wf (snd kv) = true -> number_end_ok rest = true ->
            length (dumps_l (snd kv)) <= fuel ->
            scan_value fuel (dumps_l (snd kv) ++ rest) = Some (snd kv, rest)) kvs ->
  forall k v,
  (forall fuel rest, json_wf v = true -> number_end_ok rest = true ->
     length (dumps_l v) <= fuel -> scan_value fuel (dumps_l v ++ rest) = Some (v, rest)) ->
  forall fuel acc rest,
  json_wf (JDict ((k, v) :: kvs)) = true ->
  length (dumps_l v) + length (dumps_members kvs) + 1 <= fuel ->
  scan_object fuel (encode_string k ++ chars ": " ++ dumps_l v ++ dumps_members kvs ++ "}"%char :: rest) acc
  = Some (JDict (dict_of_pairs (List.rev acc ++ (k, v) :: kvs)), rest).
Proof.
  induction kvs as [|[k' v'] kvs IH]; intros HF k v Hv fuel acc rest Hwf Hlen;
    (destruct fuel as [|f]; [lia|]);
    apply json_wf_dict in Hwf as [Hwv [_ Hwk]];
    unfold encode_string at 1; rewrite <- app_comm_cons, scan_object_S_cons, Ascii.eqb_refl;
    rewrite <- app_assoc; change ([dq] ++ ?R) with (dq :: R); rewrite scan_string_encoded.
  - simpl dumps_members in *. simpl.
    rewrite skip_ws_dumps, Hv by (first [exact Hwv | reflexivity | lia]).
    simpl. unfold chars. rewrite string_of_list_ascii_of_string. reflexivity.
  - inversion HF as [|? ? Hy HFys]; subst. simpl dumps_members in *.
    simpl in Hlen. rewrite ?length_app in Hlen. simpl.
    unfold chars at 1. rewrite string_of_list_ascii_of_string.
    rewrite <- ?app_assoc, skip_ws_dumps, Hv by (first [exact Hwv | reflexivity | lia]).
    simpl.
    assert (E : forall R, dq :: flat_map escape_char (list_ascii_of_string k') ++ dq :: R
                          = encode_string k' ++ R).
    { intros R. unfold encode_string. simpl. rewrite <- app_assoc. reflexivity. }
    rewrite E, <- app_assoc. change (":"%char :: " "%char :: ?X) with (chars ": " ++ X).
    pose proof (dumps_length_pos v). simpl in Hlen. rewrite ?length_app in Hlen.
    rewrite IH; [ | exact HFys | exact Hy | exact Hwk | lia].
    simpl. rewrite <- app_assoc. reflexivity.
Qed.

Lemma scan_value_dumps j :
  forall fuel rest, json_wf j = true -> number_end_ok rest = true ->
  length (dumps_l j) <= fuel -> scan_value fuel (dumps_l j ++ rest) = Some (j, rest).
Proof.
  induction j as [| b | z | s | l IHl | kvs IHkvs] using json_ind';
    intros fuel rest Hwf Hr Hlen;
    (destruct fuel as [|f];
     [match goal with |- scan_value _ (dumps_l ?J ++ _) = _ =>
        pose proof (dumps_length_pos J); lia end |]).
  - reflexivity.
  - destruct b; reflexivity.
  - destruct (int_repr_head z) as [c [t [E Hh]]].
    change (dumps_l (JInt z)) with (int_repr z). rewrite E, <- app_comm_cons, scan_value_S_cons.
    destruct (number_head_props c Hh) as [-> [-> [-> [-> [-> ->]]]]]. cbv beta iota.
    rewrite app_comm_cons, <- E. apply scan_number_int_repr. exact Hr.
  - change (dumps_l (JStr s)) with (encode_string s). unfold encode_string.
    rewrite <- app_comm_cons, scan_value_S_cons, Ascii.eqb_refl, <- app_assoc.
    change ([dq] ++ ?R) with (dq :: R). rewrite scan_string_encoded.
    simpl. unfold chars. rewrite string_of_list_ascii_of_string. reflexivity.
  - destruct l as [|x xs]; [reflexivity|].
    inversion IHl as [|? ? Hx HFxs]; subst.
    rewrite dumps_list_cons in *. simpl in Hlen. rewrite ?length_app in Hlen. simpl in Hlen.
    rewrite <- app_comm_cons, scan_value_S_cons. simpl.
    rewrite <- ?app_assoc, skip_ws_dumps.
    destruct (dumps_head x) as [c [t [E Hh]]].
    destruct (head_ok_props c Hh) as [_ [Hc _]].
    rewrite E, <- app_comm_cons, Hc, app_comm_cons, <- E.
    change (["]"%char] ++ ?R) with ("]"%char :: R). rewrite scan_array_items; [reflexivity | exact HFxs | exact Hx | exact Hwf | lia].
  - destruct kvs as [|[k v] kvs]; [reflexivity|].
    inversion IHkvs as [|? ? Hv HFkvs]; subst.
    pose proof (json_wf_dict _ _ _ Hwf) as [_ [Hnd _]].
    rewrite dumps_dict_cons in *. simpl in Hlen. rewrite ?length_app in Hlen. simpl in Hlen.
    rewrite <- app_comm_cons, scan_value_S_cons. simpl.
    rewrite <- ?app_assoc. simpl. rewrite <- ?app_assoc. simpl.
    assert (E : forall R, dq :: flat_map escape_char (list_ascii_of_string k) ++ dq :: R
                          = encode_string k ++ R).
    { intros R. unfold encode_string. simpl. rewrite <- app_assoc. reflexivity. }
    rewrite E. change (":"%char :: " "%char :: ?X) with (chars ": " ++ X).
    rewrite scan_object_members; [ | exact HFkvs | exact Hv | exact Hwf | rewrite ?length_app in Hlen; simpl in Hlen; lia].
    simpl. rewrite dict_of_pairs_nodup by exact Hnd. reflexivity.
Qed.

Lemma json_loads_dumps j : json_wf j = true -> json_loads (json_dumps j) = Some j.
Proof.
  intros Hwf. unfold json_loads, json_dumps, chars.
  rewrite list_ascii_of_string_of_list_ascii.
  pose proof (skip_ws_dumps j []) as Hs. rewrite app_nil_r in Hs. rewrite Hs.
  pose proof (scan_value_dumps j (S (length (dumps_l j))) [] Hwf eq_refl) as Hv.
  rewrite app_nil_r in Hv. rewrite Hv by lia. reflexivity.
Qed.

(** ** Dict updates *)

Lemma dict_get_set_eq k v d : dict_get k (dict_set k v d) = Some v.
Proof.
  induction d as [|[k' v'] d IH]; simpl.
  - rewrite String.eqb_refl. reflexivity.
  - destruct (String.eqb_spec k k') as [->|Hne]; simpl.
    + rewrite String.eqb_refl. reflexivity.
    + apply String.eqb_neq in Hne. rewrite Hne. exact IH.
Qed.

Lemma dict_get_set_ne k k' v d : k <> k' -> dict_get k (dict_set k' v d) = dict_get k d.
Proof.
  intros Hne. apply String.eqb_neq in Hne.
  induction d as [|[k0 v0] d IH]; simpl.
  - rewrite Hne. reflexivity.
  - destruct (String.eqb k' k0) eqn:E; simpl.
    + apply String.eqb_eq in E. subst k0. rewrite Hne. reflexivity.
    + rewrite IH. reflexivity.
Qed.

Lemma set_if_some_ne {A} k k' (f : A -> json) o d :
  k <> k' -> dict_get k (set_if_some k' f o d) = dict_get k d.
Proof. intros Hne. destruct o; simpl; [apply dict_get_set_ne, Hne | reflexivity]. Qed.

(** ** [make_request], evaluated *)

Lemma make_request_eval upstream url method headers hd data params log :
  py_or headers (JDict []) = JDict hd ->
  make_request upstream url method headers data params log =
  let ml := str_lower method in
  let r := build_request ml url (JDict (dict_set "User-Agent" (JStr USER_AGENT) hd)) data params in
  if mem_str ml httpx_verbs then
    (match upstream r with
     | NetFailure msg => Ok (request_failed_record msg)
     | NetResponse status text =>
         if is_2xx status then
           match json_loads text with
           | Some j => Ok j
           | None => Ok (request_failed_record "Expecting value")
           end
         else Ok (http_error_record status text)
     end, log ++ [r])
  else
    (Ok (request_failed_record ("'AsyncClient' object has no attribute '" +++ ml +++ "'")), log).
Proof.
  intros Hh. unfold make_request. rewrite Hh. cbv zeta. unfold try_except, bind, send.
  destruct (mem_str (str_lower method) httpx_verbs); [|reflexivity].
  destruct (upstream _) as [status text|msg]; [|reflexivity].
  destruct (is_2xx status); [|reflexivity].
  destruct (json_loads text); reflexivity.
Qed.

Lemma make_request_log upstream url method headers hd data params log :
  py_or headers (JDict []) = JDict hd ->
  mem_str (str_lower method) httpx_verbs = true ->
  snd (make_request upstream url method headers data params log)
  = log ++ [build_request (str_lower method) url
              (JDict (dict_set "User-Agent" (JStr USER_AGENT) hd)) data params].
Proof.
  intros Hh Hv. rewrite (make_request_eval _ _ _ _ _ _ _ _ Hh). cbv zeta. rewrite Hv.
  destruct (upstream _) as [status text|msg]; [|reflexivity].
  destruct (is_2xx status); [|reflexivity].
  destruct (json_loads text); reflexivity.
Qed.

Lemma call_make_request_log upstream kws url method hd log :
  find (fun kv => negb (mem_str (fst kv) make_request_params)) kws = None ->
  dict_get "url" kws = Some (JStr url) ->
  dict_get "method" kws = Some (JStr method) ->
  py_or (arg_or_none kws "headers") (JDict []) = JDict hd ->
  mem_str (str_lower method) httpx_verbs = true ->
  snd (call_make_request upstream kws log)
  = log ++ [build_request (str_lower method) url
              (JDict (dict_set "User-Agent" (JStr USER_AGENT) hd))
              (arg_or_none kws "data") (arg_or_none kws "params")].
Proof.
  intros Hf Hu Hm Hh Hv. unfold call_make_request. rewrite Hf, Hu, Hm.
  apply make_request_log; assumption.
Qed.

(** A [try] around a call whose continuation and handler only return. *)
Lemma try_ret_log {A B} (m : M A) (k : A -> B) (h : exn -> B) log :
  snd (try_except (bind m (fun a => ret (k a))) (fun e => ret (h e)) log) = snd (m log).
Proof.
  unfold try_except, bind, ret. destruct (m log) as [[a|e] log']; reflexivity.
Qed.

(** The log of a [make_request(...)] call whose keywords all bind and
    whose method the client has. *)
Ltac rewrite_call_log :=
  match goal with
  | |- context [snd (call_make_request ?U ?K ?L)] =>
      rewrite (call_make_request_log U K _ _ _ L eq_refl eq_refl eq_refl eq_refl eq_refl)
  end.

(** ** SQLite [LIKE] on a pattern without wildcards *)

Lemma like_match_percent r s :
  like_match ("%"%char :: r) s
  = like_match r s || match s with [] => false | _ :: s' => like_match ("%"%char :: r) s' end.
Proof. destruct s; reflexivity. Qed.

Lemma like_match_percent_only s : like_match ["%"%char] s = true.
Proof.
  induction s as [|d s IH]; [reflexivity|].
  rewrite like_match_percent, IH. apply orb_true_r.
Qed.

Lemma like_match_prefix p s :
  forallb (fun c => negb (Ascii.eqb c "%" || Ascii.eqb c "_")) p = true ->
  like_match (p ++ ["%"%char]) s = prefix_by eq_ci p s.
Proof.
  revert s; induction p as [|c p IH]; intros s Hp.
  - apply like_match_percent_only.
  - simpl in Hp. apply andb_prop in Hp as [Hc Hp].
    apply negb_true_iff, orb_false_iff in Hc as [Hpct Hund].
    rewrite <- app_comm_cons. simpl. rewrite Hpct.
    destruct s as [|d s]; [reflexivity|]. rewrite Hund, IH by exact Hp. reflexivity.
Qed.

Lemma like_match_contains p s :
  forallb (fun c => negb (Ascii.eqb c "%" || Ascii.eqb c "_")) p = true ->
  like_match ("%"%char :: p ++ ["%"%char]) s = contains_by eq_ci p s.
Proof.
  intros Hp. induction s as [|d s IH];
    rewrite like_match_percent, like_match_prefix by exact Hp; [reflexivity|].
  rewrite IH. reflexivity.
Qed.

Lemma search_endpoint_contains catalog query :
  no_wildcards query = true ->
  search_endpoint catalog query
  = map_entries (filter (fun r => contains_ci query (row_path r)) catalog).
Proof.
  intros Hq. unfold search_endpoint, like_pattern, contains_ci. f_equal.
  apply filter_ext. intros r. apply like_match_contains, Hq.
Qed.

(** * Claims *)

(** ** Where [make_request] puts [data] *)

(** C5: every request [make_request] hands to the network carries the
    lowercased method; when that method is get, delete, head or options
    the request has no JSON body and its query parameters are [data] when
    [data] is given (truthy) and [params] otherwise; for any other method
    [data] is the JSON body and [params] are attached when given. *)
Theorem make_request_data_placement upstream url method headers data params log :
  exists sent,
    snd (make_request upstream url method headers data params log) = log ++ sent /\
    Forall (fun r =>
      rq_method r = str_lower method /\
      if mem_str (str_lower method) query_methods
      then rq_json r = None /\ rq_params r = Some (if truthy data then data else params)
      else rq_json r = Some data /\ rq_params r = (if truthy params then Some params else None))
      sent.
Proof.
  destruct (py_or headers (JDict [])) as [| | | | |hd] eqn:Eh;
    try (exists []; split; [unfold make_request; rewrite Eh, app_nil_r; reflexivity | constructor]).
  destruct (mem_str (str_lower method) httpx_verbs) eqn:Ev.
  - eexists. split; [exact (make_request_log _ _ _ _ _ _ _ _ Eh Ev)|].
    constructor; [|constructor]. unfold build_request.
    destruct (mem_str (str_lower method) query_methods); simpl; repeat split.
  - exists []. split; [|constructor].
    rewrite (make_request_eval _ _ _ _ _ _ _ _ Eh). cbv zeta. rewrite Ev.
    rewrite app_nil_r. reflexivity.
Qed.

(** ** The two error records of [make_request] *)

(** C6: for a method the client has, a response with a status outside
    2xx becomes the record with ["status"] set to that status and
    ["details"] to the raw response text; a failure with no response
    becomes the record whose ["details"] is the failure's message and
    which has no ["status"] key; no record of the first kind equals one of
    the second. *)
Theorem make_request_error_records upstream url method hd data params log :
  mem_str (str_lower method) httpx_verbs = true ->
  let r := build_request (str_lower method) url
             (JDict (dict_set "User-Agent" (JStr USER_AGENT) hd)) data params in
  (forall status text, upstream r = NetResponse status text -> is_2xx status = false ->
     fst (make_request upstream url method (JDict hd) data params log)
     = Ok (http_error_record status text)) /\
  (forall msg, upstream r = NetFailure msg ->
     fst (make_request upstream url method (JDict hd) data params log)
     = Ok (request_failed_record msg)) /\
  (forall status text, exists d, http_error_record status text = JDict d
     /\ dict_get "status" d = Some (JInt status) /\ dict_get "details" d = Some (JStr text)) /\
  (forall msg, exists d, request_failed_record msg = JDict d
     /\ dict_get "status" d = None /\ dict_get "details" d = Some (JStr msg)) /\
  (forall status text msg, http_error_record status text <> request_failed_record msg).
Proof.
  intros Hv r.
  assert (Hh : py_or (JDict hd) (JDict []) = JDict hd) by (destruct hd; reflexivity).
  rewrite (make_request_eval _ _ _ _ _ _ _ _ Hh). cbv zeta. rewrite Hv. fold r.
  repeat split.
  - intros status text Hr H2. rewrite Hr, H2. reflexivity.
  - intros msg Hr. rewrite Hr. reflexivity.
  - intros status text. eexists. split; [reflexivity|]. split; reflexivity.
  - intros msg. eexists. split; [reflexivity|]. split; reflexivity.
  - intros status text msg H. discriminate H.
Qed.

(** ** Filters of [get_project_work_packages] *)

(** C9: for every well-formed filter value [f] (a value a Python program
    can hold: no dict repeats a key), [get_project_work_packages] sends
    one GET whose query parameter ["filters"] is the string
    [json.dumps(f)], serialised once, and [json.loads] of that string
    gives back [f]. *)
Theorem get_project_work_packages_filters_roundtrip upstream host xcred project_id
    offset page_size f sort_by group_by show_sums select log :
  json_wf f = true ->
  exists r ps s,
    snd (get_project_work_packages upstream host xcred project_id offset page_size
           (Some f) sort_by group_by show_sums select log) = log ++ [r]
    /\ rq_method r = "get" /\ rq_params r = Some (JDict ps)
    /\ dict_get "filters" ps = Some (JStr s)
    /\ s = json_dumps f /\ json_loads s = Some f.
Proof.
  intros Hwf. unfold get_project_work_packages. cbv zeta. rewrite try_ret_log.
  rewrite_call_log. do 3 eexists. split; [reflexivity|]. split; [reflexivity|]. split; [reflexivity|].
  split; [|split; [reflexivity | apply json_loads_dumps, Hwf]].
  unfold get_project_work_packages_params. cbv zeta.
  rewrite !set_if_some_ne by discriminate. simpl. apply dict_get_set_eq.
Qed.

(** ** The request of [list_work_packages] *)

(** C10: for filters omitted ([None]) or given as a list, [list_work_packages]
    sends exactly one GET, with no JSON body, whose query parameters are
    offset 1, pageSize 20, the serialised effective filters, sortBy
    [[["id", "asc"]]], showSums ["false"] and timestamps ["PT0S"]; the
    effective filters are the default open-status filter alone when
    filters are omitted, nothing for an empty list, and the default filter
    followed by the caller's filters otherwise. *)
Theorem list_work_packages_request upstream host xcred fs log :
  let effective :=
    match fs with
    | None => [default_status_filter]
    | Some [] => []
    | Some l => default_status_filter :: l
    end in
  exists r,
    snd (list_work_packages upstream host xcred (option_map JList fs) log) = log ++ [r]
    /\ rq_method r = "get" /\ rq_json r = None
    /\ rq_params r =
       Some (JDict [("offset", JInt 1); ("pageSize", JInt 20);
                    ("filters", JStr (json_dumps (JList effective)));
                    ("sortBy", JStr (json_dumps (JList [JList [JStr "id"; JStr "asc"]])));
                    ("showSums", JStr "false"); ("timestamps", JStr "PT0S")]).
Proof.
  intros effective. unfold list_work_packages. cbv zeta.
  destruct fs as [[|x l]|]; unfold bind at 1; cbn [option_map py_iter ret]; cbv beta iota;
    rewrite try_ret_log; rewrite_call_log;
    (eexists; split; [reflexivity|]); repeat split.
Qed.

(** ** Calls with a [json=] keyword *)

(** C2 (as the code behaves): [create_project], [create_work_package],
    [update_work_package], [comment_work_package] and
    [add_work_package_watcher] return, for every input, their local error
    string with the message of the [TypeError] raised by the unexpected
    [json] keyword, and send nothing; [update_project] does the same when
    at least one field is given, and returns its "No update fields
    provided" message otherwise. *)
Theorem json_keyword_operations_send_nothing :
  (forall upstream host xcred name description identifier public status_explanation log,
     create_project upstream host xcred name description identifier public status_explanation log
     = (Ok (JStr ("Error creating project: "
                  +++ "make_request() got an unexpected keyword argument 'json'")), log)) /\
  (forall upstream host xcred project_id name description identifier public active
          status_explanation log,
     update_project upstream host xcred project_id name description identifier public active
       status_explanation log
     = (Ok (JStr (match update_project_payload name identifier public active description
                          status_explanation with
                  | [] => "No update fields provided. Please specify at least one field to change."
                  | _ => "Error updating project " +++ z_str project_id +++ ": "
                         +++ "make_request() got an unexpected keyword argument 'json'"
                  end)), log)) /\
  (forall upstream host xcred project_id subject description type_id priority_id status_id
          assignee_id start_date due_date estimated_time notify log,
     create_work_package upstream host xcred project_id subject description type_id
       priority_id status_id assignee_id start_date due_date estimated_time notify log
     = (Ok (JStr ("Error creating work package in project " +++ z_str project_id +++ ": "
                  +++ "make_request() got an unexpected keyword argument 'json'")), log)) /\
  (forall upstream host xcred work_package_id lock_version subject description
          percentage_done type_id priority_id status_id assignee_id start_date due_date
          estimated_time notify log,
     update_work_package upstream host xcred work_package_id lock_version subject description
       percentage_done type_id priority_id status_id assignee_id start_date due_date
       estimated_time notify log
     = (Ok (JStr ("Error updating work package " +++ z_str work_package_id +++ ": "
                  +++ "make_request() got an unexpected keyword argument 'json'")), log)) /\
  (forall upstream host xcred work_package_id comment_text notify log,
     comment_work_package upstream host xcred work_package_id comment_text notify log
     = (Ok (JStr ("Error commenting on work package " +++ z_str work_package_id +++ ": "
                  +++ "make_request() got an unexpected keyword argument 'json'")), log)) /\
  (forall upstream host xcred work_package_id user_id log,
     add_work_package_watcher upstream host xcred work_package_id user_id log
     = (Ok (JStr ("Error adding watcher to work package " +++ z_str work_package_id +++ ": "
                  +++ "make_request() got an unexpected keyword argument 'json'")), log)).
Proof.
  repeat split; intros; try reflexivity.
  unfold update_project. cbv zeta.
  destruct (update_project_payload _ _ _ _ _ _); reflexivity.
Qed.

(** C2: [update_project] with no field to change calls nothing and
    returns its own message, and [update_activity] raises before its
    [try]. *)
Lemma json_keyword_counterexample :
  update_project (fun _ => NetFailure "unreachable") "pm.example" "key" 1
    None None None None None None []
  = (Ok (JStr "No update fields provided. Please specify at least one field to change."), [])
  /\ fst (update_activity (fun _ => NetFailure "unreachable") (fun _ => None) 1 "text" [])
     = Raise (UnboundLocalError "api_key").
Proof. split; reflexivity. Qed.

(** ** Presence tests of the payload shapers *)

(** C1: [create_project] always writes ["identifier"], as [null] when the
    caller omits it, and [create_work_package] tests ids for truthiness,
    so an explicit type id [0] is dropped, where [update_work_package]
    keeps it. *)
Theorem payload_presence_tests :
  (forall name description public status_explanation,
     dict_get "identifier"
       (create_project_payload name description None public status_explanation)
     = Some JNull) /\
  dict_get "_links"
    (create_work_package_payload "Task" None (Some 0%Z) None None None None None None) = None /\
  dict_get "_links"
    (update_work_package_payload 3 None None None (Some 0%Z) None None None None None None)
  = Some (JDict [("type", href "/api/v3/types/" 0)]).
Proof.
  split; [|split; reflexivity].
  intros name description public status_explanation.
  unfold create_project_payload. cbv zeta.
  destruct description as [d|], status_explanation as [s|]; simpl;
    try destruct (negb (String.eqb d EmptyString)); try destruct (negb (String.eqb s EmptyString));
    simpl; rewrite ?dict_get_set_ne by discriminate; reflexivity.
Qed.

(** ** An empty 2xx body *)

(** C3: a 204 response with an empty body comes back from
    [make_request] as the "Request failed" record of the JSON decode
    error, for every URL, header dict, data and params. *)
Theorem make_request_204_empty_body url hd data params log :
  fst (make_request (fun _ => NetResponse 204 EmptyString) url "DELETE" (JDict hd) data params log)
  = Ok (request_failed_record "Expecting value").
Proof.
  assert (Hh : py_or (JDict hd) (JDict []) = JDict hd) by (destruct hd; reflexivity).
  rewrite (make_request_eval _ _ _ _ _ _ _ _ Hh). reflexivity.
Qed.

(** ** Operations that raise or return a dict *)

(** C4: [run_api] raises [UnboundLocalError] for every input, as do
    [view_activity], [update_activity] and [execute_custom_action];
    [list_projects] returns the response dict itself, not a string. *)
Theorem operations_raise_or_return_dict :
  (forall upstream query method log,
     fst (run_api upstream query method log) = Raise (UnboundLocalError "api_key")) /\
  (forall upstream env activity_id log,
     fst (view_activity upstream env activity_id log) = Raise (UnboundLocalError "api_key")) /\
  (forall upstream env activity_id text log,
     fst (update_activity upstream env activity_id text log)
     = Raise (UnboundLocalError "api_key")) /\
  (forall upstream env custom_action_id work_package_id lock_version log,
     fst (execute_custom_action upstream env custom_action_id work_package_id lock_version log)
     = Raise (UnboundLocalError "api_key")) /\
  fst (list_projects (fun _ => NetResponse 200 "{}") "pm.example" "key" []) = Ok (JDict []).
Proof. repeat split; reflexivity. Qed.

(** ** The lock version *)

(** C7: [update_work_package]'s payload starts with ["lockVersion"] set to
    the given token, but the call sends nothing; [execute_custom_action]
    raises before it builds its payload. *)
Theorem lock_version_paths :
  (forall lock_version subject description percentage_done type_id priority_id status_id
          assignee_id start_date due_date estimated_time,
     dict_get "lockVersion"
       (update_work_package_payload lock_version subject description percentage_done type_id
          priority_id status_id assignee_id start_date due_date estimated_time)
     = Some (JInt lock_version)) /\
  (forall upstream host xcred work_package_id lock_version subject description
          percentage_done type_id priority_id status_id assignee_id start_date due_date
          estimated_time notify log,
     snd (update_work_package upstream host xcred work_package_id lock_version subject
            description percentage_done type_id priority_id status_id assignee_id start_date
            due_date estimated_time notify log) = log) /\
  (forall upstream env custom_action_id work_package_id lock_version log,
     fst (execute_custom_action upstream env custom_action_id work_package_id lock_version log)
     = Raise (UnboundLocalError "api_key")).
Proof.
  split; [|split; intros; reflexivity].
  intros. unfold update_work_package_payload. cbv zeta.
  destruct (work_package_links _ _ _ _ _);
    rewrite ?dict_get_set_ne, ?set_if_some_ne by discriminate; reflexivity.
Qed.

(** ** The catalog search *)

(** C8 (as the code behaves): for a query with no [%] or [_],
    [search_endpoint] returns the entries of exactly the rows whose path
    contains the query with ASCII letters compared without case, in
    table order, each row's stored JSON text parsed ("None" as the request
    body gives null); when no row matches it returns the empty list and
    [query_api] returns the serialised error object
    {"error": "No matching endpoints found"}. *)
Theorem search_endpoint_like_ci catalog query :
  no_wildcards query = true ->
  search_endpoint catalog query
  = map_entries (filter (fun r => contains_ci query (row_path r)) catalog) /\
  ((forall r, In r catalog -> contains_ci query (row_path r) = false) ->
   search_endpoint catalog query = Ok [] /\
   query_api catalog query
   = Ok (JStr (json_dumps (JDict [("error", JStr "No matching endpoints found")])))).
Proof.
  intros Hq. split; [apply search_endpoint_contains, Hq|]. intros Hnone.
  assert (Hf : filter (fun r => contains_ci query (row_path r)) catalog = []).
  { clear Hq. induction catalog as [|r rs IH]; [reflexivity|]. simpl.
    rewrite Hnone by (left; reflexivity). apply IH.
    intros r' Hr'. apply Hnone. right. exact Hr'. }
  assert (Hs : search_endpoint catalog query = Ok []).
  { rewrite search_endpoint_contains, Hf by exact Hq. reflexivity. }
  split; [exact Hs|]. unfold query_api. rewrite Hs. reflexivity.
Qed.

(** C8: the upper-case query "PROJECTS" finds the row of
    "/api/v3/projects", whose path does not contain it character for
    character, and a query that matches no row makes [query_api] return
    the error object rather than an empty list. *)
Lemma search_endpoint_counterexample :
  let row := mk_row "/api/v3/projects" "GET" "List projects" "None" "{}" in
  contains_cs "PROJECTS" (row_path row) = false /\
  search_endpoint [row] "PROJECTS"
  = Ok [JDict [("path", JStr "/api/v3/projects"); ("method", JStr "GET");
               ("description", JStr "List projects"); ("request_body", JNull);
               ("responses", JDict [])]] /\
  query_api [row] "zzz"
  = Ok (JStr (json_dumps (JDict [("error", JStr "No matching endpoints found")]))).
Proof. vm_compute. repeat split. Qed.

(** ** Instances *)

Example loads_dumps_ex :
  let j := JList [JDict [("project", JDict [("operator", JStr "=");
                                            ("values", JList [JStr "5"; JInt (-12)])])]] in
  json_loads (json_dumps j) = Some j.
Proof. vm_compute. reflexivity. Qed.

Example loads_empty_ex : json_loads EmptyString = None.
Proof. reflexivity. Qed.

(** A 404 from the upstream, through [make_request_error_records]. *)
Lemma make_request_error_records_witness :
  mem_str (str_lower "GET") httpx_verbs = true /\
  fst (make_request (fun _ => NetResponse 404 "Not Found") "https://pm.example/api/v3/projects/9"
         "GET" (JDict []) JNull JNull [])
  = Ok (http_error_record 404 "Not Found").
Proof.
  split; [reflexivity|].
  exact (proj1 (make_request_error_records (fun _ => NetResponse 404 "Not Found")
                  "https://pm.example/api/v3/projects/9" "GET" [] JNull JNull [] eq_refl)
           404%Z "Not Found" eq_refl eq_refl).
Defined.

(** The filter [[{"project": {"operator": "=", "values": ["5"]}}]] of
    project 5, through [get_project_work_packages_filters_roundtrip]. *)
Lemma get_project_work_packages_filters_roundtrip_witness :
  let f := JList [JDict [("project", JDict [("operator", JStr "=");
                                            ("values", JList [JStr "5"])])]] in
  json_wf f = true /\
  exists r ps s,
    snd (get_project_work_packages (fun _ => NetResponse 200 "[]") "pm.example" "key" 5
           None None (Some f) None None None None []) = [r]
    /\ rq_params r = Some (JDict ps) /\ dict_get "filters" ps = Some (JStr s)
    /\ json_loads s = Some f.
Proof.
  intros f. split; [reflexivity|].
  destruct (get_project_work_packages_filters_roundtrip (fun _ => NetResponse 200 "[]")
              "pm.example" "key" 5 None None f None None None None [] eq_refl)
    as (r & ps & s & Hlog & _ & Hp & Hf & _ & Hs).
  exists r, ps, s. split; [exact Hlog|]. split; [exact Hp|]. split; [exact Hf | exact Hs].
Defined.

(** The query "projects" over one catalog row, through
    [search_endpoint_like_ci]. *)
Lemma search_endpoint_like_ci_witness :
  let catalog := [mk_row "/api/v3/Projects" "GET" "List projects" "None" "{}"] in
  no_wildcards "projects" = true /\
  search_endpoint catalog "projects"
  = map_entries (filter (fun r => contains_ci "projects" (row_path r)) catalog).
Proof.
  intros catalog. split; [reflexivity|].
  exact (proj1 (search_endpoint_like_ci catalog "projects" eq_refl)).
Defined.

(** * Further properties of the code *)

(** ** [make_request] with a client method, as one value *)

Lemma make_request_value upstream url method headers hd data params log :
  py_or headers (JDict []) = JDict hd ->
  mem_str (str_lower method) httpx_verbs = true ->
  make_request upstream url method headers data params log
  = let r := build_request (str_lower method) url
               (JDict (dict_set "User-Agent" (JStr USER_AGENT) hd)) data params in
    (Ok (response_value (upstream r)), log ++ [r]).
Proof.
  intros Hh Hv. rewrite (make_request_eval _ _ _ _ _ _ _ _ Hh). cbv zeta. rewrite Hv.
  unfold response_value. destruct (upstream _) as [status text|msg]; [|reflexivity].
  destruct (is_2xx status); [|reflexivity]. destruct (json_loads text); reflexivity.
Qed.

Lemma call_make_request_value upstream kws url method hd log :
  find (fun kv => negb (mem_str (fst kv) make_request_params)) kws = None ->
  dict_get "url" kws = Some (JStr url) ->
  dict_get "method" kws = Some (JStr method) ->
  py_or (arg_or_none kws "headers") (JDict []) = JDict hd ->
  mem_str (str_lower method) httpx_verbs = true ->
  call_make_request upstream kws log
  = let r := build_request (str_lower method) url
               (JDict (dict_set "User-Agent" (JStr USER_AGENT) hd))
               (arg_or_none kws "data") (arg_or_none kws "params") in
    (Ok (response_value (upstream r)), log ++ [r]).
Proof.
  intros Hf Hu Hm Hh Hv. unfold call_make_request. rewrite Hf, Hu, Hm.
  apply make_request_value; assumption.
Qed.

Lemma dumps_or_error_value upstream kws prefix url method hd log :
  find (fun kv => negb (mem_str (fst kv) make_request_params)) kws = None ->
  dict_get "url" kws = Some (JStr url) ->
  dict_get "method" kws = Some (JStr method) ->
  py_or (arg_or_none kws "headers") (JDict []) = JDict hd ->
  mem_str (str_lower method) httpx_verbs = true ->
  dumps_or_error upstream kws prefix log
  = let r := build_request (str_lower method) url
               (JDict (dict_set "User-Agent" (JStr USER_AGENT) hd))
               (arg_or_none kws "data") (arg_or_none kws "params") in
    (Ok (JStr (json_dumps (response_value (upstream r)))), log ++ [r]).
Proof.
  intros Hf Hu Hm Hh Hv. unfold dumps_or_error, try_except, bind.
  rewrite (call_make_request_value _ _ _ _ _ _ Hf Hu Hm Hh Hv). reflexivity.
Qed.

(** The result of a [make_request(...)] call inside an operation whose
    keywords all bind and whose method the client has. *)
Ltac eval_dumps_or_error :=
  match goal with
  | |- context [dumps_or_error ?U ?K ?P ?L] =>
      rewrite (dumps_or_error_value U K P _ _ _ L eq_refl eq_refl eq_refl eq_refl eq_refl)
  end.

Ltac eval_call_make_request :=
  match goal with
  | |- context [call_make_request ?U ?K ?L] =>
      rewrite (call_make_request_value U K _ _ _ L eq_refl eq_refl eq_refl eq_refl eq_refl)
  end.

(** [headers] given as a dict or omitted. *)
Lemma headers_dict headers :
  (headers = JNull \/ exists hd, headers = JDict hd) ->
  py_or headers (JDict []) = JDict (match headers with JDict hd => hd | _ => [] end).
Proof.
  intros [-> | [hd ->]]; [reflexivity|]. destruct hd; reflexivity.
Qed.

(** ** ASCII output of the serialiser *)

Lemma ascii_only_app a b : ascii_only (a ++ b) = ascii_only a && ascii_only b.
Proof. apply forallb_app. Qed.

Lemma ascii_only_cons c l :
  ascii_only (c :: l) = (nat_of_ascii c <? 128)%nat && ascii_only l.
Proof. reflexivity. Qed.

Lemma escape_char_ascii c : ascii_only (escape_char c) = true.
Proof.
  destruct c as [[] [] [] [] [] [] [] []]; reflexivity.
Qed.

Lemma encode_string_ascii s : ascii_only (encode_string s) = true.
Proof.
  unfold encode_string. rewrite ascii_only_cons, ascii_only_app.
  change (ascii_only [dq]) with true. change ((nat_of_ascii dq <? 128)%nat) with true.
  rewrite andb_true_r. cbn [andb].
  induction (chars s) as [|c cs IH]; [reflexivity|].
  cbn [flat_map]. rewrite ascii_only_app, escape_char_ascii, IH. reflexivity.
Qed.

Lemma uint_ascii d : ascii_only (chars (NilEmpty.string_of_uint d)) = true.
Proof. induction d; simpl in *; try rewrite IHd; reflexivity. Qed.

Lemma int_repr_ascii z : ascii_only (int_repr z) = true.
Proof.
  unfold int_repr, digits_of_N. destruct z; apply uint_ascii.
Qed.

Lemma dumps_items_ascii xs :
  Forall (fun x => ascii_only (dumps_l x) = true) xs -> ascii_only (dumps_items xs) = true.
Proof.
  induction xs as [|y ys IH]; intros H; [reflexivity|].
  inversion H as [|? ? Hy Hys]; subst. cbn [dumps_items].
  rewrite !ascii_only_app, Hy, (IH Hys). reflexivity.
Qed.

Lemma dumps_members_ascii ms :
  Forall (fun kv => ascii_only (dumps_l (snd kv)) = true) ms ->
  ascii_only (dumps_members ms) = true.
Proof.
  induction ms as [|[k v] ms IH]; intros H; [reflexivity|].
  inversion H as [|? ? Hv Hms]; subst. simpl in Hv. cbn [dumps_members].
  rewrite !ascii_only_app, encode_string_ascii, Hv, (IH Hms). reflexivity.
Qed.

Lemma dumps_ascii j : ascii_only (dumps_l j) = true.
Proof.
  induction j as [| b | z | s | l Hl | kvs Hkvs] using json_ind'.
  - reflexivity.
  - destruct b; reflexivity.
  - apply int_repr_ascii.
  - apply encode_string_ascii.
  - destruct l as [|x xs]; [reflexivity|].
    rewrite dumps_list_cons. inversion Hl as [|? ? Hx Hxs]; subst.
    rewrite ascii_only_cons, !ascii_only_app, Hx, (dumps_items_ascii _ Hxs). reflexivity.
  - destruct kvs as [|[k v] kvs]; [reflexivity|].
    rewrite dumps_dict_cons. inversion Hkvs as [|? ? Hv Hkvs']; subst. simpl in Hv.
    rewrite ascii_only_cons, !ascii_only_app, encode_string_ascii, Hv,
      (dumps_members_ascii _ Hkvs'). reflexivity.
Qed.

(** ** The read operations on the imported configuration *)

(** X1: The nine read operations that use the imported [host] and [api_key]
    never raise: each sends exactly one GET to its URL, with the two
    usual headers plus the User-Agent and no body, and returns
    [json.dumps] of what [make_request] made of the answer.
    [view_work_package] sends an empty parameter dict when [timestamps]
    is [None], and otherwise the one parameter ["timestamps"] holding the
    comma-joined list (the empty string for an empty list). *)
Theorem read_operations_send_one_get upstream host key log :
  let answer url params :=
    (Ok (JStr (json_dumps (response_value (upstream (api_request "get" url key params))))),
     log ++ [api_request "get" url key params]) in
  (forall project_id,
     view_project upstream host key project_id log
     = answer ("https://" +++ host +++ "/api/v3/projects/" +++ z_str project_id) JNull) /\
  list_statuses upstream host key log
  = answer ("https://" +++ host +++ "/api/v3/statuses") JNull /\
  (forall status_id,
     view_project_status upstream host key status_id log
     = answer ("https://" +++ host +++ "/api/v3/project_statuses/" +++ int_or_str_fmt status_id)
         JNull) /\
  (forall project_id,
     get_project_available_assignees upstream host key project_id log
     = answer ("https://" +++ host +++ "/api/v3/projects/" +++ z_str project_id
               +++ "/available_assignees") JNull) /\
  (forall work_package_id timestamps,
     view_work_package upstream host key work_package_id timestamps log
     = answer ("https://" +++ host +++ "/api/v3/work_packages/" +++ z_str work_package_id)
         (JDict (match timestamps with
                 | None => []
                 | Some l => [("timestamps", JStr (join_comma l))]
                 end))) /\
  (forall work_package_id,
     list_work_package_activities upstream host key work_package_id log
     = answer ("https://" +++ host +++ "/api/v3/work_packages/" +++ z_str work_package_id
               +++ "/activities") JNull) /\
  (forall work_package_id,
     get_work_package_available_assignees upstream host key work_package_id log
     = answer ("https://" +++ host +++ "/api/v3/work_packages/" +++ z_str work_package_id
               +++ "/available_assignees") JNull) /\
  (forall work_package_id,
     get_work_package_available_watchers upstream host key work_package_id log
     = answer ("https://" +++ host +++ "/api/v3/work_packages/" +++ z_str work_package_id
               +++ "/available_watchers") JNull) /\
  (forall work_package_id,
     list_work_package_watchers upstream host key work_package_id log
     = answer ("https://" +++ host +++ "/api/v3/work_packages/" +++ z_str work_package_id
               +++ "/watchers") JNull).
Proof.
  intros answer.
  split; [intros; unfold view_project; cbv zeta; eval_dumps_or_error; reflexivity|].
  split; [unfold list_statuses; cbv zeta; eval_dumps_or_error; reflexivity|].
  split; [intros; unfold view_project_status; cbv zeta; eval_dumps_or_error; reflexivity|].
  split; [intros; unfold get_project_available_assignees; cbv zeta; eval_dumps_or_error;
          reflexivity|].
  split; [intros wid [l|]; unfold view_work_package; cbv zeta; eval_dumps_or_error;
          reflexivity|].
  split; [intros; unfold list_work_package_activities; cbv zeta; eval_dumps_or_error;
          reflexivity|].
  split; [intros; unfold get_work_package_available_assignees; cbv zeta; eval_dumps_or_error;
          reflexivity|].
  split; [intros; unfold get_work_package_available_watchers; cbv zeta; eval_dumps_or_error;
          reflexivity|].
  intros; unfold list_work_package_watchers; cbv zeta; eval_dumps_or_error; reflexivity.
Qed.

(** ** [remove_work_package_watcher] *)

(** X2: [remove_work_package_watcher] sends one DELETE and reports success
    whatever the upstream answers: the text after "Response: " is [str]
    of [make_request]'s result, which for a 404 is the repr of the HTTP
    error record. *)
Theorem remove_work_package_watcher_reports_success upstream host key work_package_id user_id log :
  let r := api_request "delete" ("https://" +++ host +++ "/api/v3/work_packages/"
                                 +++ z_str work_package_id +++ "/watchers/" +++ z_str user_id)
             key JNull in
  remove_work_package_watcher upstream host key work_package_id user_id log
  = (Ok (JStr ("Successfully removed user " +++ z_str user_id +++ " as watcher from work package "
               +++ z_str work_package_id +++ ". Response: " +++ py_str (response_value (upstream r)))),
     log ++ [r])
  /\ py_str (response_value (NetResponse 404 "Not Found"))
     = "{'error': 'HTTP error', 'status': 404, 'details': 'Not Found'}".
Proof.
  intros r. split; [|reflexivity].
  unfold remove_work_package_watcher. cbv zeta. unfold try_except, bind at 1.
  eval_call_make_request. reflexivity.
Qed.

(** ** The operations that read the environment *)

(** X3: The ten operations that start with
    [api_key = os.getenv("OPENPROJECT_API_KEY", api_key)] raise
    [UnboundLocalError] on [api_key] for every input and environment,
    before they send anything. *)
Theorem env_operations_raise_unbound_api_key upstream env log :
  let unbound := (Raise (UnboundLocalError "api_key"), log) : outcome json * list request in
  (forall work_package_id,
     list_work_package_attachments upstream env work_package_id log = unbound) /\
  (forall attachment_id, view_attachment upstream env attachment_id log = unbound) /\
  (forall attachment_id, delete_attachment upstream env attachment_id log = unbound) /\
  (forall custom_action_id, get_custom_action upstream env custom_action_id log = unbound) /\
  (forall work_package_id storage_filter,
     get_work_package_file_links upstream env work_package_id storage_filter log = unbound) /\
  (forall file_link_id, get_file_link upstream env file_link_id log = unbound) /\
  (forall sort_by select_fields filters,
     list_groups upstream env sort_by select_fields filters log = unbound) /\
  (forall offset page_size filters sort_by select_fields,
     list_users upstream env offset page_size filters sort_by select_fields log = unbound) /\
  (forall offset page_size sort_by group_by filters,
     get_notification_collection upstream env offset page_size sort_by group_by filters log
     = unbound) /\
  (forall notification_id detail_id,
     get_notification_detail upstream env notification_id detail_id log = unbound).
Proof. repeat split; reflexivity. Qed.

(** ** [make_request]: headers, errors and the round trip *)

(** X4: With [headers] a dict or omitted and a method the client has,
    [make_request] sends one request whose headers map ["User-Agent"] to
    [USER_AGENT] and every other key to the caller's value. *)
Theorem make_request_sets_user_agent upstream url method headers data params log :
  mem_str (str_lower method) httpx_verbs = true ->
  (headers = JNull \/ exists hd, headers = JDict hd) ->
  exists r h,
    snd (make_request upstream url method headers data params log) = log ++ [r] /\
    rq_headers r = JDict h /\
    dict_get "User-Agent" h = Some (JStr USER_AGENT) /\
    forall k, k <> "User-Agent" ->
      dict_get k h = match headers with JDict hd => dict_get k hd | _ => None end.
Proof.
  intros Hv Hh. pose proof (headers_dict headers Hh) as Hd.
  rewrite (make_request_value _ _ _ _ _ _ _ _ Hd Hv). cbv zeta.
  eexists; eexists. split; [reflexivity|]. split.
  { unfold build_request. destruct (mem_str _ query_methods); reflexivity. }
  split; [apply dict_get_set_eq|].
  intros k Hk. rewrite dict_get_set_ne by exact Hk.
  destruct Hh as [-> | [hd ->]]; reflexivity.
Qed.

Lemma make_request_ok upstream url method headers hd data params log :
  py_or headers (JDict []) = JDict hd ->
  exists a, fst (make_request upstream url method headers data params log) = Ok a.
Proof.
  intros Hh. rewrite (make_request_eval _ _ _ _ _ _ _ _ Hh). cbv zeta.
  destruct (mem_str _ httpx_verbs); [|eexists; reflexivity].
  destruct (upstream _) as [status text|msg]; [|eexists; reflexivity].
  destruct (is_2xx status); [|eexists; reflexivity].
  destruct (json_loads text); eexists; reflexivity.
Qed.

Lemma make_request_bad_headers upstream url method headers data params log :
  (forall hd, py_or headers (JDict []) <> JDict hd) ->
  make_request upstream url method headers data params log
  = (Raise (TypeError "item assignment on a non-dict headers value"), log).
Proof.
  intros H. unfold make_request.
  destruct (py_or headers (JDict [])) eqn:E; try reflexivity.
  exfalso. exact (H _ eq_refl).
Qed.

(** X5: [make_request] raises exactly when [headers] is truthy and not a
    dict ([headers["User-Agent"] = ...] fails), and then it has sent
    nothing; every other call returns a value. *)
Theorem make_request_raises_only_on_bad_headers upstream url method headers data params log :
  ((exists e, fst (make_request upstream url method headers data params log) = Raise e)
   <-> (truthy headers = true /\ forall hd, headers <> JDict hd)) /\
  (forall e, fst (make_request upstream url method headers data params log) = Raise e ->
             snd (make_request upstream url method headers data params log) = log).
Proof.
  assert (Hor : truthy headers = true -> py_or headers (JDict []) = headers)
    by (intros Ht; unfold py_or; rewrite Ht; reflexivity).
  assert (Hof : truthy headers = false -> py_or headers (JDict []) = JDict [])
    by (intros Hf; unfold py_or; rewrite Hf; reflexivity).
  destruct (py_or headers (JDict [])) as [| b | z | s | l | hd] eqn:E.
  6: {
    destruct (make_request_ok upstream url method headers hd data params log E) as [a Ha].
    rewrite Ha. split; [split|].
    - intros [e He]; discriminate.
    - intros [Ht Hn]. exfalso. apply (Hn hd). symmetry. exact (Hor Ht).
    - intros e He; discriminate. }
  all: assert (Ht : truthy headers = true)
         by (destruct (truthy headers) eqn:T; [reflexivity | discriminate (Hof eq_refl)]).
  all: rewrite make_request_bad_headers by (intros hd; rewrite E; discriminate).
  all: split; [split; [intros _; split; [exact Ht|] | intros _; eexists; reflexivity] | reflexivity].
  all: intros hd Hd; pose proof (Hor Ht) as Hx; rewrite Hd in Hx; discriminate.
Qed.

(** X6: A 2xx answer whose body is [json.dumps(j)], for a value [j] a Python
    program can hold, comes back from [make_request] as [j] itself. *)
Theorem make_request_returns_server_value url method headers data params status j log :
  mem_str (str_lower method) httpx_verbs = true ->
  (headers = JNull \/ exists hd, headers = JDict hd) ->
  is_2xx status = true ->
  json_wf j = true ->
  fst (make_request (fun _ => NetResponse status (json_dumps j)) url method headers data params log)
  = Ok j.
Proof.
  intros Hv Hh H2 Hwf.
  rewrite (make_request_value _ _ _ _ _ _ _ _ (headers_dict headers Hh) Hv). cbv zeta.
  simpl. rewrite H2, json_loads_dumps by exact Hwf. reflexivity.
Qed.

(** ** The serialiser's output *)

(** X7: [json.dumps] with [ensure_ascii=True] writes ASCII only: every
    character of its output is below 128, whatever strings the value
    holds; so the JSON text [query_api] returns is ASCII even when the
    catalog's descriptions are not. *)
Theorem json_output_ascii_only :
  (forall j, ascii_only (chars (json_dumps j)) = true) /\
  (forall catalog query s, query_api catalog query = Ok (JStr s) -> ascii_only (chars s) = true).
Proof.
  assert (H : forall j, ascii_only (chars (json_dumps j)) = true).
  { intros j. unfold json_dumps, chars. rewrite list_ascii_of_string_of_list_ascii.
    apply dumps_ascii. }
  split; [exact H|].
  intros catalog query s. unfold query_api.
  destruct (search_endpoint catalog query) as [[|e es]|x]; intros Hq; try discriminate;
    inversion Hq; apply H.
Qed.

(** X8: [make_request] with a method name the httpx client has no request
    method for (say "FETCH") fails before sending: it returns a
    request-failed record and the log is unchanged. *)
Theorem make_request_unknown_method upstream url method headers data params log :
  mem_str (str_lower method) httpx_verbs = false ->
  (headers = JNull \/ exists hd, headers = JDict hd) ->
  exists msg, make_request upstream url method headers data params log
              = (Ok (request_failed_record msg), log).
Proof.
  intros Hv Hh. rewrite (make_request_eval _ _ _ _ _ _ _ _ (headers_dict headers Hh)). cbv zeta.
  rewrite Hv. eexists. reflexivity.
Qed.

(** ** The query of [get_project_work_packages] *)

(** X9: [get_project_work_packages] sends one GET whose query parameters are
    exactly the options the caller gave, in the source's order: a given
    [0] or [False] is kept ([is not None] tests), and [showSums] is the
    string ["true"] or ["false"]. *)
Theorem get_project_work_packages_param_keys upstream host key project_id
    offset page_size filters sort_by group_by show_sums select log :
  exists r ps,
    snd (get_project_work_packages upstream host key project_id offset page_size
           filters sort_by group_by show_sums select log) = log ++ [r]
    /\ rq_params r = Some (JDict ps)
    /\ map fst ps = present "offset" offset ++ present "pageSize" page_size
                    ++ present "filters" filters ++ present "sortBy" sort_by
                    ++ present "groupBy" group_by ++ present "showSums" show_sums
                    ++ present "select" select
    /\ dict_get "offset" ps = option_map JInt offset
    /\ dict_get "showSums" ps
       = option_map (fun b : bool => JStr (if b then "true" else "false")) show_sums.
Proof.
  unfold get_project_work_packages. cbv zeta. rewrite try_ret_log. rewrite_call_log.
  eexists _, _. split; [reflexivity|]. split; [reflexivity|].
  unfold get_project_work_packages_params.
  destruct offset, page_size, filters, sort_by, group_by, show_sums, select;
    repeat split; reflexivity.
Qed.

(** ** What [*filters] makes of a dict, a string or a number *)

(** X10: [list_work_packages] unpacks [filters] with [*filters]: a dict
    contributes its keys only (as strings, the conditions are dropped), a
    string contributes its characters one by one, and an int or a bool
    makes the list display raise [TypeError] outside the [try], so the
    operation raises and sends nothing. *)
Theorem list_work_packages_unpacks_filters upstream host key log :
  (forall d, exists r ps,
     snd (list_work_packages upstream host key (Some (JDict d)) log) = log ++ [r]
     /\ rq_params r = Some (JDict ps)
     /\ dict_get "filters" ps
        = Some (JStr (json_dumps (JList (default_status_filter :: map (fun kv => JStr (fst kv)) d))))) /\
  (forall s, exists r ps,
     snd (list_work_packages upstream host key (Some (JStr s)) log) = log ++ [r]
     /\ rq_params r = Some (JDict ps)
     /\ dict_get "filters" ps
        = Some (JStr (json_dumps (JList (default_status_filter
                                         :: map (fun c => JStr (String c EmptyString)) (chars s)))))) /\
  (forall f, (exists z, f = JInt z) \/ (exists b, f = JBool b) ->
     exists msg, list_work_packages upstream host key (Some f) log = (Raise (TypeError msg), log)).
Proof.
  split; [|split].
  - intros d. unfold list_work_packages. cbv zeta. unfold bind at 1. cbn [py_iter ret].
    cbv beta iota. rewrite try_ret_log. rewrite_call_log.
    eexists _, _. split; [reflexivity|]. split; reflexivity.
  - intros s. unfold list_work_packages. cbv zeta. unfold bind at 1. cbn [py_iter ret].
    cbv beta iota. rewrite try_ret_log. rewrite_call_log.
    eexists _, _. split; [reflexivity|]. split; reflexivity.
  - intros f [[z ->] | [b ->]]; eexists; reflexivity.
Qed.

(** ** The conversion of the catalog rows *)



Lemma row_entry_fields r e :
  row_entry r = Some e ->
  field e "path" = JStr (row_path r) /\ field e "method" = JStr (row_method r).
Proof.
  unfold row_entry.
  destruct (if String.eqb (row_request_body r) "None" then Some JNull
            else json_loads (row_request_body r)); [|discriminate].
  destruct (json_loads (row_responses r)); [|discriminate].
  intros H. inversion H. split; reflexivity.
Qed.

Lemma map_entries_ok rows :
  forallb (fun r => match row_entry r with Some _ => true | None => false end) rows = true ->
  exists es, map_entries rows = Ok es
             /\ map (fun e => field e "path") es = map (fun r => JStr (row_path r)) rows
             /\ map (fun e => field e "method") es = map (fun r => JStr (row_method r)) rows.
Proof.
  induction rows as [|r rs IH]; simpl; intros H.
  - exists []. split; [reflexivity | split; reflexivity].
  - destruct (row_entry r) as [e|] eqn:Er; [|discriminate].
    destruct (IH H) as (es & Hes & Hp & Hm). rewrite Hes.
    destruct (row_entry_fields r e Er) as [Hpe Hme].
    exists (e :: es). simpl. rewrite Hpe, Hme, Hp, Hm. split; [reflexivity | split; reflexivity].
Qed.

(** X12: When at least one row matches and every matching row parses,
    [query_api] returns the JSON string of [{"available_paths": [...]}]
    with one entry per matching row, in table order, carrying that row's
    path and method. *)
Theorem query_api_lists_matching_rows catalog query :
  let matching := filter (fun r => like_match (like_pattern query) (chars (row_path r))) catalog in
  matching <> [] ->
  forallb (fun r => match row_entry r with Some _ => true | None => false end) matching = true ->
  exists ps,
    query_api catalog query = Ok (JStr (json_dumps (JDict [("available_paths", JList ps)])))
    /\ map (fun p => field p "path") ps = map (fun r => JStr (row_path r)) matching
    /\ map (fun p => field p "method") ps = map (fun r => JStr (row_method r)) matching.
Proof.
  intros matching Hne Hok.
  destruct (map_entries_ok matching Hok) as (es & Hes & Hp & Hm).
  unfold query_api, search_endpoint. fold matching. rewrite Hes.
  destruct es as [|e es].
  - destruct matching; [congruence | discriminate].
  - exists (map available_path (e :: es)). split; [reflexivity|].
    rewrite !map_map. split; [rewrite <- Hp | rewrite <- Hm]; reflexivity.
Qed.

(** ** [pm_launch.py]: the wrappers *)

Module PmLaunchFacts.
Import PmLaunch.

Lemma pm_try_ret_log {A} (m : PM A) (h : req_exn -> A) log :
  snd (pm_try m (fun e => pm_ret (h e)) log) = snd (m log).
Proof. unfold pm_try, pm_ret. destruct (m log) as [[e|a] log']; reflexivity. Qed.

Lemma post_unchecked_log up url payload log :
  snd (post_unchecked up url payload log) = log ++ [post_request url payload].
Proof.
  unfold post_unchecked, pm_bind, post. cbv zeta.
  destruct (up (post_request url payload)) as [status reason text|msg]; [|reflexivity].
  unfold response_json. destruct (json_loads text); reflexivity.
Qed.

(** X13: The four wrappers without [raise_for_status] hand back whatever JSON
    the server answers, whatever its status: a 404 or 500 with a JSON
    body reads as that body, not as an error. *)
Theorem pm_unchecked_wrappers_ignore_status status reason j log :
  json_wf j = true ->
  let up := fun _ : request => PmResponse status reason (json_dumps j) in
  (forall project_id offset page_size filters sort_by,
     fst (get_project_work_packages up project_id offset page_size filters sort_by log) = inr j) /\
  (forall name public description identifier status_explanation,
     fst (create_project up name public description identifier status_explanation log) = inr j) /\
  (forall project_id subject notify description status_id type_id priority_id,
     fst (create_work_package up project_id subject notify description status_id type_id
            priority_id log) = inr j) /\
  (forall work_package_id lock_version notify status_id description percentage_done,
     fst (update_work_package up work_package_id lock_version notify status_id description
            percentage_done log) = inr j).
Proof.
  intros Hwf up.
  assert (H : forall url payload,
             post_unchecked up url payload log
             = (inr j, log ++ [post_request url payload])).
  { intros url payload. unfold post_unchecked, pm_bind, post, up. cbv beta zeta iota.
    unfold response_json. rewrite json_loads_dumps by exact Hwf. reflexivity. }
  repeat split; intros;
    [unfold get_project_work_packages | unfold create_project | unfold create_work_package
    | unfold update_work_package]; cbv zeta; unfold pm_try; rewrite H; reflexivity.
Qed.


(** X15: When the PM server cannot be reached, every wrapper returns
    [{"error": ...}] with its prefix (none for the four without
    [raise_for_status]) and the connection error's message. *)
Theorem pm_wrappers_connection_failure msg log :
  let up := fun _ : request => PmFailure msg in
  (forall filters, fst (list_projects up filters log)
                   = inr (error_record ("Failed to retrieve projects list: " +++ msg))) /\
  (forall project_id offset page_size filters sort_by,
     fst (get_project_work_packages up project_id offset page_size filters sort_by log)
     = inr (error_record msg)) /\
  (forall name public description identifier status_explanation,
     fst (create_project up name public description identifier status_explanation log)
     = inr (error_record msg)) /\
  (forall project_id subject notify description status_id type_id priority_id,
     fst (create_work_package up project_id subject notify description status_id type_id
            priority_id log) = inr (error_record msg)) /\
  (forall work_package_id lock_version notify status_id description percentage_done,
     fst (update_work_package up work_package_id lock_version notify status_id description
            percentage_done log) = inr (error_record msg)) /\
  (forall now work_package_id, fst (view_work_package up now work_package_id log)
                               = inr (error_record ("Failed to retrieve work package: " +++ msg))) /\
  (forall work_package_id comment_text notify,
     fst (comment_work_package up work_package_id comment_text notify log)
     = inr (error_record ("Failed to add comment to WP " +++ z_str work_package_id +++ ": " +++ msg))) /\
  fst (list_statuses up log) = inr (error_record ("Failed to retrieve statuses: " +++ msg)).
Proof. repeat split; reflexivity. Qed.

(** X16: The payload [update_work_package] posts has the keys
    [work_package_id], [lock_version] and [notify], then [status_id] when
    it is truthy ([if status_id:] drops [0]), [description] when it is a
    non-empty string, and [percentage_done] whenever it is given ([is not
    None] keeps [0]). *)
Theorem pm_update_work_package_payload_keys up work_package_id lock_version notify
    status_id description percentage_done log :
  exists p,
    snd (update_work_package up work_package_id lock_version notify status_id description
           percentage_done log)
    = log ++ [post_request (PM_BASE_URL +++ "/update_work_package") (JDict p)]
    /\ map fst p = ["work_package_id"; "lock_version"; "notify"]
                   ++ present_if "status_id" (truthy (opt_json JInt status_id))
                   ++ present_if "description" (truthy (opt_json JStr description))
                   ++ present "percentage_done" percentage_done.
Proof.
  unfold update_work_package. cbv zeta. eexists. split.
  - rewrite pm_try_ret_log with (h := fun e => error_record (req_exn_str e)).
    apply post_unchecked_log.
  - unfold update_work_package_payload.
    destruct status_id as [z|], description as [s|], percentage_done;
      cbn [opt_json truthy set_if_truthy set_if_some];
      try destruct (negb (z =? 0)%Z); try destruct (negb (String.eqb s EmptyString));
      reflexivity.
Qed.

(** X17: The payloads of [create_project], [create_work_package] and
    [get_project_work_packages] test their optional fields with [if x:]:
    a field is posted when it is truthy, so an empty string, a [0] id or
    an empty filter list is left out, while [offset] and [page_size] are
    always posted ([None] as [null]). *)
Theorem pm_create_payload_keys :
  (forall name public description identifier status_explanation,
     map fst (create_project_payload name public description identifier status_explanation)
     = ["name"; "public"] ++ present_if "description" (truthy (opt_json JStr description))
       ++ present_if "identifier" (truthy (opt_json JStr identifier))
       ++ present_if "status_explanation" (truthy (opt_json JStr status_explanation))) /\
  (forall project_id subject notify description status_id type_id priority_id,
     map fst (create_work_package_payload project_id subject notify description status_id
                type_id priority_id)
     = ["project_id"; "subject"; "notify"]
       ++ present_if "description" (truthy (opt_json JStr description))
       ++ present_if "status_id" (truthy (opt_json JInt status_id))
       ++ present_if "type_id" (truthy (opt_json JInt type_id))
       ++ present_if "priority_id" (truthy (opt_json JInt priority_id))) /\
  (forall project_id offset page_size filters sort_by,
     map fst (get_project_work_packages_payload project_id offset page_size filters sort_by)
     = ["project_id"; "offset"; "page_size"]
       ++ present_if "filters" (truthy (opt_json (fun j => j) filters))
       ++ present_if "sort_by" (truthy (opt_json (fun j => j) sort_by))).
Proof.
  split; [|split]; intros.
  - unfold create_project_payload. cbv zeta.
    destruct description as [d|], identifier as [i|], status_explanation as [e|];
      cbn [opt_json set_if_truthy];
      try destruct (truthy (JStr d)); try destruct (truthy (JStr i)); try destruct (truthy (JStr e));
      reflexivity.
  - unfold create_work_package_payload. cbv zeta.
    destruct description as [d|], status_id as [a|], type_id as [b|], priority_id as [c|];
      cbn [opt_json set_if_truthy];
      try destruct (truthy (JStr d)); try destruct (truthy (JInt a)); try destruct (truthy (JInt b));
      try destruct (truthy (JInt c)); reflexivity.
  - unfold get_project_work_packages_payload. cbv zeta.
    destruct filters as [f|], sort_by as [g|]; cbn [opt_json set_if_truthy];
      try destruct (truthy f); try destruct (truthy g); reflexivity.
Qed.

(** ** [is_done] *)





End PmLaunchFacts.

(** ** Instances of the further properties *)

(** A GET with an [Accept] header: the header is kept beside the
    User-Agent, through [make_request_sets_user_agent]. *)
Lemma make_request_sets_user_agent_witness :
  let headers := JDict [("Accept", JStr "application/json")] in
  mem_str (str_lower "GET") httpx_verbs = true /\
  exists r h,
    snd (make_request (fun _ => NetResponse 200 "{}") "https://pm.example/api/v3/projects" "GET"
           headers JNull JNull []) = [r]
    /\ rq_headers r = JDict h
    /\ dict_get "User-Agent" h = Some (JStr USER_AGENT)
    /\ dict_get "Accept" h = Some (JStr "application/json").
Proof.
  intros headers. split; [reflexivity|].
  destruct (make_request_sets_user_agent (fun _ => NetResponse 200 "{}")
              "https://pm.example/api/v3/projects" "GET" headers JNull JNull [] eq_refl
              (or_intror (ex_intro _ _ eq_refl))) as (r & h & Hl & Hr & Hu & Hk).
  exists r, h. split; [exact Hl|]. split; [exact Hr|]. split; [exact Hu|].
  rewrite Hk by discriminate. reflexivity.
Defined.

(** A 200 answer carrying a project object, through
    [make_request_returns_server_value]. *)
Lemma make_request_returns_server_value_witness :
  let j := JDict [("id", JInt 5); ("name", JStr "Demo")] in
  mem_str (str_lower "GET") httpx_verbs = true /\ is_2xx 200 = true /\ json_wf j = true /\
  fst (make_request (fun _ => NetResponse 200 (json_dumps j)) "https://pm.example/api/v3/projects/5"
         "GET" JNull JNull JNull []) = Ok j.
Proof.
  intros j. split; [reflexivity|]. split; [reflexivity|]. split; [reflexivity|].
  exact (make_request_returns_server_value "https://pm.example/api/v3/projects/5" "GET" JNull
           JNull JNull 200 j [] eq_refl (or_introl eq_refl) eq_refl eq_refl).
Defined.

(** Two catalog rows of which one matches "projects", through
    [query_api_lists_matching_rows]. *)
Lemma query_api_lists_matching_rows_witness :
  let catalog := [mk_row "/api/v3/projects" "GET" "List projects" "None" "{}";
                  mk_row "/api/v3/users" "GET" "List users" "None" "{}"] in
  let matching := filter (fun r => like_match (like_pattern "projects") (chars (row_path r))) catalog in
  matching <> [] /\
  forallb (fun r => match row_entry r with Some _ => true | None => false end) matching = true /\
  exists ps,
    query_api catalog "projects" = Ok (JStr (json_dumps (JDict [("available_paths", JList ps)])))
    /\ map (fun p => field p "path") ps = map (fun r => JStr (row_path r)) matching
    /\ map (fun p => field p "method") ps = map (fun r => JStr (row_method r)) matching.
Proof.
  intros catalog matching.
  assert (Hne : matching <> []) by (vm_compute; discriminate).
  assert (Hok : forallb (fun r => match row_entry r with Some _ => true | None => false end)
                  matching = true) by (vm_compute; reflexivity).
  split; [exact Hne|]. split; [exact Hok|].
  exact (query_api_lists_matching_rows catalog "projects" Hne Hok).
Defined.

(** A 404 with a JSON body from [create_project]'s endpoint, through
    [pm_unchecked_wrappers_ignore_status]. *)
Lemma pm_unchecked_wrappers_ignore_status_witness :
  let j := JDict [("detail", JStr "Not Found")] in
  json_wf j = true /\
  fst (PmLaunch.create_project (fun _ => PmLaunch.PmResponse 404 "Not Found" (json_dumps j))
         "Demo" true None None None []) = inr j.
Proof.
  intros j. split; [reflexivity|].
  exact (proj1 (proj2 (PmLaunchFacts.pm_unchecked_wrappers_ignore_status 404 "Not Found" j []
                         eq_refl)) "Demo" true None None None).
Defined.


(** A "FETCH" request, through [make_request_unknown_method]. *)
Lemma make_request_unknown_method_witness :
  mem_str (str_lower "FETCH") httpx_verbs = false /\
  exists msg, make_request (fun _ => NetResponse 200 "{}") "https://pm.example/api/v3/projects"
                "FETCH" JNull JNull JNull [] = (Ok (request_failed_record msg), []).
Proof.
  split; [reflexivity|].
  exact (make_request_unknown_method (fun _ => NetResponse 200 "{}")
           "https://pm.example/api/v3/projects" "FETCH" JNull JNull JNull [] eq_refl
           (or_introl eq_refl)).
Defined.
